(** * MTA_Subway_Tracker: the reconciliation pipeline, embedded and verified

    Shallow embedding of [build_training_data.py] (time parsing, delay
    computation, service-calendar lookup, the merge and filter steps of
    [main]) and of the storage part of [app/App.py] (the two
    [trip_updates] tables and one ingestion cycle).

    Conventions of the embedding.
    - A Python [str] is a list of characters; the development covers ASCII
      text (code points below 128), which is what GTFS files and the feed
      carry.
    - Python integers are [Z].  The float returned by
      [timedelta.total_seconds()] is an integer number of seconds here:
      every timedelta built by the code has zero microseconds and a
      magnitude far below 2^53, so the float is exact.
    - A call either returns a value or raises: [res A].  [try_except]
      mirrors a [try ... except (E1, E2)] block. *)

From Stdlib Require Import ZArith List Ascii String Bool Lia DecimalString.
From Stdlib Require DecimalZ.
Import ListNotations.
Open Scope Z_scope.

(** ** Python values, exceptions and strings *)

Module Py.

Inductive exn : Type := ValueError | IndexError | OverflowError | KeyError.

Definition exn_eqb (a b : exn) : bool :=
  match a, b with
  | ValueError, ValueError | IndexError, IndexError
  | OverflowError, OverflowError | KeyError, KeyError => true
  | _, _ => false
  end.

Inductive res (A : Type) : Type :=
| Ret (a : A)
| Raise (e : exn).
Arguments Ret {A} a.
Arguments Raise {A} e.

Definition bind {A B : Type} (c : res A) (k : A -> res B) : res B :=
  match c with
  | Ret a => k a
  | Raise e => Raise e
  end.

(** [try: c except: caught => handler]: the handler runs when [c] raises one
    of the listed exceptions; any other exception propagates. *)
Definition try_except {A : Type} (c : res A) (caught : list exn) (handler : res A) : res A :=
  match c with
  | Ret a => Ret a
  | Raise e => if existsb (exn_eqb e) caught then handler else Raise e
  end.

Definition str : Type := list ascii.
Definition lit (s : string) : str := list_ascii_of_string s.

Fixpoint str_eqb (a b : str) : bool :=
  match a, b with
  | [], [] => true
  | x :: a', y :: b' => Ascii.eqb x y && str_eqb a' b'
  | _, _ => false
  end.

(** The values a DataFrame cell or a function argument can hold, as far as
    the code distinguishes them. *)
Inductive pyval : Type :=
| PyNone
| PyNaN
| PyInt (z : Z)
| PyStr (s : str).

Definition code (c : ascii) : Z := Z.of_N (N_of_ascii c).

Definition is_digit (c : ascii) : bool := (48 <=? code c) && (code c <=? 57).
Definition digit_val (c : ascii) : Z := code c - 48.
Definition in_range (lo hi : ascii) (c : ascii) : bool :=
  (code lo <=? code c) && (code c <=? code hi).

(** [Py_ISSPACE]: space, \t, \n, \v, \f, \r. *)
Definition is_space (c : ascii) : bool :=
  (code c =? 32) || ((9 <=? code c) && (code c <=? 13)).

(** [s.split(sep)] for a one-character separator: never empty, and
    [''.split(':') = ['']]. *)
Fixpoint split (sep : ascii) (s : str) : list str :=
  match s with
  | [] => [[]]
  | c :: r =>
      if Ascii.eqb c sep then [] :: split sep r
      else match split sep r with
           | f :: fs => (c :: f) :: fs
           | [] => [[c]]
           end
  end.

(** [s.split(sep, 1)]: at most one cut, at the first separator. *)
Fixpoint split1 (sep : ascii) (s : str) : list str :=
  match s with
  | [] => [[]]
  | c :: r =>
      if Ascii.eqb c sep then [[]; r]
      else match split1 sep r with
           | f :: fs => (c :: f) :: fs
           | [] => [[c]]
           end
  end.

(** [c in s] for a one-character needle. *)
Definition contains (c : ascii) (s : str) : bool := existsb (Ascii.eqb c) s.

(** [l[i]] for [i >= 0]; an index past the end raises [IndexError]. *)
Definition index {A : Type} (l : list A) (i : nat) : res A :=
  match nth_error l i with
  | Some a => Ret a
  | None => Raise IndexError
  end.

(** [l[-1]]. *)
Definition index_last {A : Type} (l : list A) : res A :=
  match rev l with
  | a :: _ => Ret a
  | [] => Raise IndexError
  end.

(** [s[i:j]] for [0 <= i <= j]: slicing clips, it never raises. *)
Definition slice (i j : nat) (s : str) : str := firstn (j - i) (skipn i s).

Fixpoint lstrip (s : str) : str :=
  match s with
  | c :: r => if is_space c then lstrip r else s
  | [] => []
  end.

(** The digit run of [PyLong_FromString] in base 10: digits with single
    underscores between them.  Returns the value, the number of digits and
    the unread rest; [None] on a doubled or trailing underscore. *)
Fixpoint scan_digits (prev_us : bool) (acc : Z) (n : nat) (s : str)
  : option (Z * nat * str) :=
  match s with
  | c :: r =>
      if is_digit c then scan_digits false (10 * acc + digit_val c) (S n) r
      else if Ascii.eqb c "_" then
             if prev_us then None else scan_digits true acc n r
      else if prev_us then None else Some (acc, n, s)
  | [] => if prev_us then None else Some (acc, n, [])
  end.

(** [sys.int_info.default_max_str_digits]. *)
Definition max_str_digits : nat := 4300.

(** [int(s)] on a [str]: optional surrounding white space, optional sign,
    then the digit run; anything else is a [ValueError]. *)
Definition py_int (s : str) : res Z :=
  let s1 := lstrip s in
  let '(neg, s2) :=
    match s1 with
    | c :: r => if Ascii.eqb c "+" then (false, r)
                else if Ascii.eqb c "-" then (true, r)
                else (false, s1)
    | [] => (false, s1)
    end in
  match s2 with
  | c :: _ =>
      if Ascii.eqb c "_" then Raise ValueError
      else match scan_digits false 0 0 s2 with
           | None => Raise ValueError
           | Some (v, n, rest) =>
               if Nat.eqb n 0 then Raise ValueError
               else if Nat.ltb max_str_digits n then Raise ValueError
               else if forallb is_space rest then Ret (if neg then - v else v)
               else Raise ValueError
           end
  | [] => Raise ValueError
  end.

End Py.

Import Py.
Coercion Py.lit : string >-> Py.str.

Declare Scope py_scope.
Delimit Scope py_scope with py.
Notation "x <- c ;; k" := (Py.bind c (fun x => k))
  (at level 61, c at next level, right associativity) : py_scope.
Open Scope py_scope.
Open Scope string_scope.
Open Scope list_scope.
Open Scope Z_scope.


(** ** The parts of [datetime] the code uses *)

Module Datetime.

(** [datetime.time]: every time built here has microsecond 0 and no tzinfo. *)
Record time : Type := mk_time { hour : Z; minute : Z; second : Z }.

(** [datetime.timedelta], normalised: [0 <= td_seconds < 86400]. *)
Record timedelta : Type := mk_timedelta { td_days : Z; td_seconds : Z }.

(** [datetime.date]. *)
Record date : Type := mk_date { year : Z; month : Z; day : Z }.

(** [datetime.datetime], held as the proleptic Gregorian ordinal of its date
    (1 is 0001-01-01, as [toordinal] counts) and its time of day. *)
Record datetime : Type := mk_datetime { dt_ordinal : Z; dt_time : time }.

Definition MINYEAR : Z := 1.
Definition MAXYEAR : Z := 9999.
(** [date.max.toordinal()], the ordinal of 9999-12-31. *)
Definition MAXORDINAL : Z := 3652059.

Definition is_leap (y : Z) : bool :=
  (y mod 4 =? 0) && (negb (y mod 100 =? 0) || (y mod 400 =? 0)).

Definition days_in_month (y m : Z) : Z :=
  if m =? 2 then (if is_leap y then 29 else 28)
  else if (m =? 4) || (m =? 6) || (m =? 9) || (m =? 11) then 30
  else 31.

Definition days_before_year (y : Z) : Z :=
  let y1 := y - 1 in y1 * 365 + y1 / 4 - y1 / 100 + y1 / 400.

Definition days_before_month_table : list Z :=
  [0; 31; 59; 90; 120; 151; 181; 212; 243; 273; 304; 334].

Definition days_before_month (y m : Z) : Z :=
  nth (Z.to_nat (m - 1)) days_before_month_table 0
  + (if (2 <? m) && is_leap y then 1 else 0).

(** [datetime.date(y, m, d)]: a [ValueError] outside the calendar. *)
Definition date_new (y m d : Z) : res date :=
  if negb ((MINYEAR <=? y) && (y <=? MAXYEAR)) then Raise ValueError
  else if negb ((1 <=? m) && (m <=? 12)) then Raise ValueError
  else if negb ((1 <=? d) && (d <=? days_in_month y m)) then Raise ValueError
  else Ret (mk_date y m d).

Definition toordinal (d : date) : Z :=
  days_before_year (year d) + days_before_month (year d) (month d) + day d.

(** [d.weekday()]: Monday is 0, Sunday is 6. *)
Definition weekday (d : date) : Z := (toordinal d + 6) mod 7.

(** [datetime.time(h, m, s)]. *)
Definition time_new (h m s : Z) : res time :=
  if negb ((0 <=? h) && (h <=? 23)) then Raise ValueError
  else if negb ((0 <=? m) && (m <=? 59)) then Raise ValueError
  else if negb ((0 <=? s) && (s <=? 59)) then Raise ValueError
  else Ret (mk_time h m s).

(** [datetime.datetime(y, mo, d, h, mi, s)]. *)
Definition datetime_new (y mo d h mi s : Z) : res datetime :=
  dd <- date_new y mo d ;;
  t <- time_new h mi s ;;
  Ret (mk_datetime (toordinal dd) t).

Definition seconds_of_time (t : time) : Z := 3600 * hour t + 60 * minute t + second t.

Definition time_of_seconds (n : Z) : time :=
  mk_time (n / 3600) ((n mod 3600) / 60) (n mod 60).

(** [datetime.timedelta(days=d, hours=h, minutes=m, seconds=s)]: normalised,
    and an [OverflowError] when more than 999999999 days either way. *)
Definition timedelta_new (d h m s : Z) : res timedelta :=
  let total := 86400 * d + 3600 * h + 60 * m + s in
  let days := total / 86400 in
  if (Z.abs days <=? 999999999) then Ret (mk_timedelta days (total mod 86400))
  else Raise OverflowError.

Definition total_seconds (td : timedelta) : Z := 86400 * td_days td + td_seconds td.

(** [datetime.min], 0001-01-01 00:00:00. *)
Definition datetime_min : datetime := mk_datetime 1 (mk_time 0 0 0).

(** [dt + td]: an [OverflowError] ("date value out of range") when the sum
    leaves 0001-01-01 .. 9999-12-31. *)
Definition datetime_add (dt : datetime) (td : timedelta) : res datetime :=
  let secs := seconds_of_time (dt_time dt) + td_seconds td in
  let ord := dt_ordinal dt + td_days td + secs / 86400 in
  if (1 <=? ord) && (ord <=? MAXORDINAL)
  then Ret (mk_datetime ord (time_of_seconds (secs mod 86400)))
  else Raise OverflowError.

(** [a - b] on two datetimes. *)
Definition datetime_sub (a b : datetime) : timedelta :=
  let total := 86400 * (dt_ordinal a - dt_ordinal b)
               + (seconds_of_time (dt_time a) - seconds_of_time (dt_time b)) in
  mk_timedelta (total / 86400) (total mod 86400).

(** [a < b] on two datetimes. *)
Definition datetime_ltb (a b : datetime) : bool :=
  (dt_ordinal a <? dt_ordinal b)
  || ((dt_ordinal a =? dt_ordinal b)
      && (seconds_of_time (dt_time a) <? seconds_of_time (dt_time b))).

(** [datetime.datetime.combine(today, t)], [today] given by its ordinal. *)
Definition datetime_combine (today : Z) (t : time) : datetime := mk_datetime today t.

(** *** [datetime.strptime(s, '%H:%M:%S')]

    [_strptime] compiles the format to the regular expression
    [(?P<H>2[0-3]|[0-1]\d|\d):(?P<M>[0-5]\d|\d):(?P<S>6[0-1]|[0-5]\d|\d)]
    and calls [re.match].  Each group below lists its possible matches in
    the order the backtracking matcher tries the alternatives; the first
    complete match is the one [re.match] returns. *)

Definition alt2 (p1 p2 : ascii -> bool) (s : str) : list (str * str) :=
  match s with
  | c1 :: c2 :: r => if p1 c1 && p2 c2 then [([c1; c2], r)] else []
  | _ => []
  end.

Definition alt1 (p : ascii -> bool) (s : str) : list (str * str) :=
  match s with
  | c :: r => if p c then [([c], r)] else []
  | [] => []
  end.

Definition re_H (s : str) : list (str * str) :=
  alt2 (in_range "2" "2") (in_range "0" "3") s
  ++ alt2 (in_range "0" "1") is_digit s
  ++ alt1 is_digit s.

Definition re_M (s : str) : list (str * str) :=
  alt2 (in_range "0" "5") is_digit s ++ alt1 is_digit s.

Definition re_S (s : str) : list (str * str) :=
  alt2 (in_range "6" "6") (in_range "0" "1") s
  ++ alt2 (in_range "0" "5") is_digit s
  ++ alt1 is_digit s.

Definition re_colon (s : str) : list str :=
  match s with
  | c :: r => if Ascii.eqb c ":" then [r] else []
  | [] => []
  end.

(** All complete matches of the pattern at the start of [s], in matcher
    order: the three groups and the text left unread. *)
Definition re_matches (s : str) : list (str * str * str * str) :=
  flat_map (fun '(h, r1) =>
    flat_map (fun r2 =>
      flat_map (fun '(m, r3) =>
        flat_map (fun r4 =>
          map (fun '(sec, r5) => (h, m, sec, r5)) (re_S r4))
          (re_colon r3))
        (re_M r2))
      (re_colon r1))
    (re_H s).

(** The match must exist and must consume the whole string; the fields
    then go to the [datetime] constructor with the default date
    1900-01-01, which rejects the leap seconds 60 and 61 the pattern lets
    through. *)
Definition strptime_HMS (s : str) : res datetime :=
  match re_matches s with
  | [] => Raise ValueError
  | (h, m, sec, rest) :: _ =>
      match rest with
      | _ :: _ => Raise ValueError
      | [] =>
          hv <- py_int h ;;
          mv <- py_int m ;;
          sv <- py_int sec ;;
          datetime_new 1900 1 1 hv mv sv
      end
  end.

End Datetime.

Import Datetime.

(** ** build_training_data.py *)

Module BuildTrainingData.

(** [robust_time_parser(time_str)]: the standard format first, then the
    extended-hour fall-back through a timedelta from [datetime.min]. *)
Definition robust_time_parser (time_str : pyval) : res (option time) :=
  match time_str with
  | PyStr s =>
      try_except
        (dt <- strptime_HMS s ;; Ret (Some (dt_time dt)))
        [ValueError]
        (try_except
           (let parts := split ":" s in
            h <- (p <- index parts 0 ;; py_int p) ;;
            m <- (p <- index parts 1 ;; py_int p) ;;
            sec <- (p <- index parts 2 ;; py_int p) ;;
            td <- timedelta_new 0 h m sec ;;
            dt <- datetime_add datetime_min td ;;
            Ret (Some (dt_time dt)))
           [ValueError; IndexError]
           (Ret None))
  | _ => Ret None
  end.

(** One row of [merged_df] (step 2c): the real-time columns, the static
    trip id of the first merge and the scheduled arrival of the second.
    The two arrival cells are kept as Python values, since
    [robust_time_parser] looks at their type. *)
Record merged_row : Type := mk_merged_row {
  route_id : str;
  trip_id_realtime : str;
  track_direction : str;
  stop_id : str;
  stop_name : str;
  start_date : Z;
  start_time : str;
  trip_id_static : str;
  scheduled_arrival : pyval;
  actual_arrival : pyval
}.

(** [calculate_delay(row)].  [today] is the ordinal of
    [datetime.date.today()]. *)
Definition calculate_delay (today : Z) (row : merged_row) : res (option Z) :=
  scheduled_time <- robust_time_parser (scheduled_arrival row) ;;
  actual_time <- robust_time_parser (actual_arrival row) ;;
  match scheduled_time, actual_time with
  | Some scheduled_time, Some actual_time =>
      let scheduled_dt := datetime_combine today scheduled_time in
      let actual_dt := datetime_combine today actual_time in
      actual_dt <-
        (if datetime_ltb actual_dt scheduled_dt
            && (12 * 3600 <? total_seconds (datetime_sub scheduled_dt actual_dt))
         then td <- timedelta_new 1 0 0 0 ;; datetime_add actual_dt td
         else Ret actual_dt) ;;
      Ret (Some (total_seconds (datetime_sub actual_dt scheduled_dt)))
  | _, _ => Ret None
  end.

(** One row of [calendar.txt]: the seven weekday flags are the integers of
    the file, the two dates are read as integers ([YYYYMMDD]). *)
Record calendar_entry : Type := mk_calendar_entry {
  service_id : str;
  monday : Z; tuesday : Z; wednesday : Z; thursday : Z;
  friday : Z; saturday : Z; sunday : Z;
  cal_start_date : Z;
  cal_end_date : Z
}.

Inductive day_col : Type := Monday | Tuesday | Wednesday | Thursday | Friday | Saturday | Sunday.

(** [day_map.get(day_of_week)]. *)
Definition day_map_get (day_of_week : Z) : option day_col :=
  match day_of_week with
  | 0 => Some Monday | 1 => Some Tuesday | 2 => Some Wednesday
  | 3 => Some Thursday | 4 => Some Friday | 5 => Some Saturday
  | 6 => Some Sunday
  | _ => None
  end.

(** [calendar_df[day_col]] on one row. *)
Definition column (c : day_col) (e : calendar_entry) : Z :=
  match c with
  | Monday => monday e | Tuesday => tuesday e | Wednesday => wednesday e
  | Thursday => thursday e | Friday => friday e | Saturday => saturday e
  | Sunday => sunday e
  end.

(** [get_service_id_for_date(date_str, calendar_df)]. *)
Definition get_service_id_for_date (date_str : str) (calendar_df : list calendar_entry)
  : res (option str) :=
  year <- py_int (slice 0 4 date_str) ;;
  month <- py_int (slice 4 6 date_str) ;;
  day <- py_int (slice 6 8 date_str) ;;
  dt_obj <- date_new year month day ;;
  let day_of_week := weekday dt_obj in
  match day_map_get day_of_week with
  | Some day_col =>
      lo <- py_int date_str ;;
      hi <- py_int date_str ;;
      let active_services :=
        map service_id
            (filter (fun e => (cal_start_date e <=? lo) && (hi <=? cal_end_date e)
                              && (column day_col e =? 1))
                    calendar_df) in
      Ret (match active_services with
           | first :: _ => Some first
           | [] => None
           end)
  | None => Ret None
  end.

(** *** The steps of [main] from the trip match on *)

(** One row of [realtime_df] when step 2b starts: the columns of
    [trip_updates] the later steps read and the [service_id] of step 2a
    (rows without one are already dropped).  The table has no [stop_id]
    column: app/App.py stores the stop name only. *)
Record realtime_row : Type := mk_realtime_row {
  rt_id : Z;
  rt_route_id : str;
  rt_trip_id : str;
  rt_direction_id : Z;
  rt_track_direction : str;
  rt_start_time : str;
  rt_start_date : Z;
  rt_stop_name : str;
  rt_actual_arrival : pyval;
  rt_service_id : str
}.

(** One row of [trips.txt], read with [dtype=str]. *)
Record static_trip : Type := mk_static_trip {
  st_trip_id : str;
  st_route_id : str;
  st_direction_id : str;
  st_service_id : str
}.

(** One row of [stop_times.txt], read with [dtype=str]; a missing arrival
    cell is NaN. *)
Record stop_time : Type := mk_stop_time {
  stt_trip_id : str;
  stt_stop_id : str;
  stt_scheduled_arrival : pyval
}.

(** [x.split('_')[0] if '_' in x else x] *)
Definition realtime_start_time_str (x : str) : res str :=
  if contains "_" x then index (split "_" x) 0 else Ret x.

(** [x.split('_', 1)[-1].split('_')[0] if '_' in x else x] *)
Definition static_start_time_str (x : str) : res str :=
  if contains "_" x
  then tail <- index_last (split1 "_" x) ;; index (split "_" tail) 0
  else Ret x.

(** [str(n)] on an integer. *)
Definition py_str_of_int (n : Z) : str :=
  list_ascii_of_string (NilZero.string_of_int (Z.to_int n)).

(** [Series.apply(f)]: the calls run in row order, the first exception
    ends the whole apply. *)
Fixpoint apply {A B : Type} (f : A -> res B) (l : list A) : res (list B) :=
  match l with
  | [] => Ret []
  | a :: l' => b <- f a ;; bs <- apply f l' ;; Ret (b :: bs)
  end.

(** One row of [matched_trips_df]. *)
Record matched_row : Type := mk_matched_row {
  m_realtime : realtime_row;
  m_realtime_start_time_str : str;
  m_trip_id_static : str;
  m_static_start_time_str : str
}.

(** The join key of the first merge, left side: [route_id],
    [direction_id] as text, [service_id] and the start-time token. *)
Definition left_key (r : realtime_row * str) : list str :=
  [rt_route_id (fst r); py_str_of_int (rt_direction_id (fst r));
   rt_service_id (fst r); snd r].

Definition right_key (t : static_trip * str) : list str :=
  [st_route_id (fst t); st_direction_id (fst t); st_service_id (fst t); snd t].

Definition key_eqb (a b : list str) : bool :=
  Nat.eqb (List.length a) (List.length b)
  && forallb (fun p => str_eqb (fst p) (snd p)) (List.combine a b).

(** [pd.merge(left, right, left_on=..., right_on=..., how='inner')]: every
    pair of a left row and a right row with equal keys.  The rows come in
    the order pandas documents for an inner join (the order of the left
    keys, and for one left row the order of the right rows); no statement
    below depends on more than which rows are present. *)
Definition merge_inner {L R K O : Type} (lkey : L -> K) (rkey : R -> K)
    (eqb : K -> K -> bool) (out : L -> R -> O) (left : list L) (right : list R)
  : list O :=
  flat_map (fun l => map (out l) (filter (fun r => eqb (lkey l) (rkey r)) right)) left.

(** Step 2b, lines 127-150: the two token columns and the first merge. *)
Definition match_trips (realtime_df : list realtime_row) (trips_df : list static_trip)
  : res (list matched_row) :=
  rtok <- apply (fun r => realtime_start_time_str (rt_trip_id r)) realtime_df ;;
  stok <- apply (fun t => static_start_time_str (st_trip_id t)) trips_df ;;
  Ret (merge_inner left_key right_key key_eqb
         (fun l r => mk_matched_row (fst l) (snd l) (st_trip_id (fst r)) (snd r))
         (List.combine realtime_df rtok) (List.combine trips_df stok)).

(** One row of [training_data.csv]: the row of [merged_df] it was computed
    from (its columns listed in [final_columns]) and [delay_seconds]. *)
Record final_row : Type := mk_final_row {
  fr_row : merged_row;
  fr_delay_seconds : Z
}.

(** [final_df.dropna(subset=['delay_seconds'])] *)
Definition dropna (l : list (merged_row * option Z)) : list final_row :=
  flat_map (fun p => match snd p with
                     | Some d => [mk_final_row (fst p) d]
                     | None => []
                     end) l.

(** Steps 3 and 4, lines 180-197, on the frame [merged_df] they are given:
    the delay column, then the two filters. *)
Definition delay_and_filter (today : Z) (merged_df : list merged_row)
  : res (list final_row) :=
  delay_seconds <- apply (calculate_delay today) merged_df ;;
  let final_df := dropna (List.combine merged_df delay_seconds) in
  Ret (filter (fun r => Z.abs (fr_delay_seconds r) <? 7200) final_df).

(** What a run of [main] leaves behind: nothing, or the table written at
    line 200. *)
Inductive outcome : Type :=
| NothingSaved
| Saved (training_data : list final_row).

(** [main] from step 2b on (lines 127-200), on the frame read from
    [trip_updates].  An empty match returns at line 154.  Otherwise line
    160 indexes [matched_trips_df['stop_id']]; neither the table nor the
    columns taken from [trips.txt] provide that column, so the statement
    raises [KeyError] and the merge with [stop_times.txt], the delay
    column and the save are not reached. *)
Definition main_from_step_2b (today : Z) (realtime_df : list realtime_row)
    (trips_df : list static_trip) (stop_times_df : list stop_time) : res outcome :=
  matched_trips_df <- match_trips realtime_df trips_df ;;
  match matched_trips_df with
  | [] => Ret NothingSaved
  | _ :: _ => Raise KeyError
  end.

End BuildTrainingData.

Import BuildTrainingData.

(** ** app/App.py: the two tables and one ingestion cycle *)

Module App.

(** [data_tuple], the nine values bound by both INSERT statements.  The
    feed's string fields are never [None] and the stop name falls back to
    the stop id, so the three columns of the UNIQUE constraint always hold
    text (SQLite would treat NULLs as distinct). *)
Record observation : Type := mk_observation {
  route_id : str;
  trip_id : str;
  direction_id : Z;
  track_direction : str;
  start_time : str;
  start_date : str;
  stop_name : str;
  arrival_time : str;
  departure_time : str
}.

(** A [trip_updates] table: its rows with their [id], in insertion order,
    and the AUTOINCREMENT counter ([sqlite_sequence]), which DELETE leaves
    alone. *)
Record table : Type := mk_table {
  rows : list (Z * observation);
  seq : Z
}.

Definition empty_table : table := mk_table [] 0.

(** The two database files; [None] is a file without the table yet. *)
Record databases : Type := mk_databases {
  realtime_db : option table;
  historical_db : option table
}.

(** The two open tables of a cycle. *)
Record store : Type := mk_store {
  realtime : table;
  historical : table
}.

(** [CREATE TABLE IF NOT EXISTS trip_updates (...)] *)
Definition create_table_if_not_exists (t : option table) : table :=
  match t with
  | Some t => t
  | None => empty_table
  end.

Definition init_databases (db : databases) : store :=
  mk_store (create_table_if_not_exists (realtime_db db))
           (create_table_if_not_exists (historical_db db)).

(** The columns of [UNIQUE(trip_id, start_date, stop_name)]. *)
Definition natural_key (o : observation) : list str :=
  [trip_id o; start_date o; stop_name o].

(** [DELETE FROM trip_updates] *)
Definition delete_all (t : table) : table := mk_table [] (seq t).

(** [INSERT INTO trip_updates (...) VALUES (?, ...)]: the snapshot table
    has no constraint besides its generated [id]. *)
Definition insert (t : table) (o : observation) : table :=
  mk_table (rows t ++ [(seq t + 1, o)]) (seq t + 1).

(** [INSERT OR IGNORE INTO trip_updates (...) VALUES (?, ...)] under the
    UNIQUE constraint: a row with the same three columns makes the
    statement store nothing.  With AUTOINCREMENT the id is drawn before the
    constraint is checked, so an ignored statement still uses one up: the
    counter advances and the next stored row skips that id. *)
Definition insert_or_ignore (t : table) (o : observation) : table :=
  if existsb (fun r => key_eqb (natural_key (snd r)) (natural_key o)) (rows t)
  then mk_table (rows t) (seq t + 1)
  else insert t o.

(** The decoded feed, as [gtfs_realtime_pb2] hands it over. *)
Record stop_time_update : Type := mk_stop_time_update {
  stu_stop_id : str;
  stu_arrival_time : Z;
  stu_departure_time : Z
}.

Record trip_descriptor : Type := mk_trip_descriptor {
  td_route_id : str;
  td_trip_id : str;
  td_direction_id : Z;
  td_start_time : str;
  td_start_date : str
}.

Record trip_update : Type := mk_trip_update {
  tu_trip : trip_descriptor;
  tu_stop_time_update : list stop_time_update
}.

(** An entity carries a trip update or not ([HasField('trip_update')]). *)
Definition entity : Type := option trip_update.

(** One fetched feed: nothing usable ([None] or empty bytes), bytes that
    [ParseFromString] rejects, or a decoded message. *)
Inductive response : Type :=
| Falsy
| Undecodable
| Feed (entities : list entity).

(** [s.endswith(c)] for a one-character suffix. *)
Definition endswith (c : ascii) (s : str) : bool :=
  match rev s with
  | x :: _ => Ascii.eqb x c
  | [] => false
  end.

Section Cycle.

(** [stops_df.loc[stop_id, "stop_name"]]; [None] when the lookup raises. *)
Variable stops_df : str -> option str.

(** [str(datetime.fromtimestamp(t, tz=ZoneInfo("America/New_York")))[11:19]],
    the local clock time of an epoch second.  [fromtimestamp] raises on a
    second outside the years 1 to 9999, and the cycle with it; a total
    [local_clock] makes the statements on cycles statements on the cycles
    that complete. *)
Variable local_clock : Z -> str.

(** Lines 76-97: the tuple built for one stop of one trip. *)
Definition data_tuple (trip : trip_descriptor) (u : stop_time_update) : observation :=
  let stop_id := stu_stop_id u in
  let track_direction : str :=
    if endswith "N" stop_id then "Northbound"
    else if endswith "S" stop_id then "Southbound"
    else "Unknown" in
  let stop_name :=
    match stops_df stop_id with
    | Some name => name
    | None => stop_id
    end in
  mk_observation (td_route_id trip) (td_trip_id trip) (td_direction_id trip)
    track_direction (td_start_time trip) (td_start_date trip) stop_name
    (local_clock (stu_arrival_time u)) (local_clock (stu_departure_time u)).

(** Lines 98-108: the two INSERT statements for one tuple. *)
Definition store_tuple (s : store) (o : observation) : store :=
  mk_store (insert (realtime s) o) (insert_or_ignore (historical s) o).

(** Lines 66-108: the loop over the entities of one feed. *)
Definition store_entity (s : store) (e : entity) : store :=
  match e with
  | Some tu =>
      fold_left (fun s u => store_tuple s (data_tuple (tu_trip tu) u))
                (tu_stop_time_update tu) s
  | None => s
  end.

(** Lines 56-108: the loop over the responses. *)
Definition store_response (s : store) (r : response) : store :=
  match r with
  | Falsy => s
  | Undecodable => s
  | Feed entities => fold_left store_entity entities s
  end.

(** [process_and_store_data(responses)]: the snapshot is emptied, then
    every decoded tuple goes to both tables. *)
Definition process_and_store_data (s : store) (responses : list response) : store :=
  let s := mk_store (delete_all (realtime s)) (historical s) in
  fold_left store_response responses s.

(** The observations a cycle decodes, in feed order. *)
Definition decoded (responses : list response) : list observation :=
  flat_map (fun r =>
    match r with
    | Feed entities =>
        flat_map (fun e =>
          match e with
          | Some tu => map (data_tuple (tu_trip tu)) (tu_stop_time_update tu)
          | None => []
          end) entities
    | _ => []
    end) responses.

(** The store after the given cycles, oldest first. *)
Definition run_cycles (s : store) (cycles : list (list response)) : store :=
  fold_left process_and_store_data cycles s.

End Cycle.

End App.

(** ** build_training_data.py: [main] from the loaded frames *)

Module Assembler.

(** One row of [SELECT * FROM trip_updates] as [main] reads it: the
    columns of the table the later steps read, with [start_date] still
    text. *)
Record history_row : Type := mk_history_row {
  h_id : Z;
  h_route_id : str;
  h_trip_id : str;
  h_direction_id : Z;
  h_track_direction : str;
  h_start_time : str;
  h_start_date : str;
  h_stop_name : str;
  h_arrival_time : pyval
}.

(** [Series.astype(int)] on a text cell: [int(x)], which has to fit the
    64-bit integers of the column. *)
Definition astype_int (x : str) : res Z :=
  n <- py_int x ;;
  if (- 2 ^ 63 <=? n) && (n <? 2 ^ 63) then Ret n else Raise OverflowError.

(** The row of [realtime_df] after step 2a, once its date is an integer
    and its service id is known. *)
Definition with_service (r : history_row) (start_date : Z) (service_id : str)
  : realtime_row :=
  mk_realtime_row (h_id r) (h_route_id r) (h_trip_id r) (h_direction_id r)
    (h_track_direction r) (h_start_time r) start_date
    (h_stop_name r) (h_arrival_time r) service_id.

(** [realtime_df.dropna(subset=['service_id'])] *)
Definition dropna_service_id (l : list (history_row * Z * option str))
  : list realtime_row :=
  flat_map (fun p => match snd p with
                     | Some sid => [with_service (fst (fst p)) (snd (fst p)) sid]
                     | None => []
                     end) l.

(** Step 2a, lines 107-111: the date column becomes integers, each date
    is looked up as [str(x)], and the rows without a service are dropped. *)
Definition assign_service_ids (realtime_df : list history_row)
    (calendar_df : list calendar_entry) : res (list realtime_row) :=
  start_date <- apply (fun r => astype_int (h_start_date r)) realtime_df ;;
  service_id <- apply (fun x => get_service_id_for_date (py_str_of_int x) calendar_df)
                      start_date ;;
  Ret (dropna_service_id
         (List.combine (List.combine realtime_df start_date) service_id)).

(** [main], lines 85-200, on the frames it has loaded. *)
Definition main (today : Z) (realtime_df : list history_row)
    (trips_df : list static_trip) (stop_times_df : list stop_time)
    (calendar_df : list calendar_entry) : res outcome :=
  match realtime_df with
  | [] => Ret NothingSaved
  | _ :: _ =>
      realtime_df <- assign_service_ids realtime_df calendar_df ;;
      match realtime_df with
      | [] => Ret NothingSaved
      | _ :: _ => main_from_step_2b today realtime_df trips_df stop_times_df
      end
  end.

End Assembler.

Import Assembler.

(** ** train_model.py: the feature columns *)

Module TrainModel.

(** The lambda of line 11:
    [(int(x[0:2]) * 3600) + (int(x[3:5]) * 60) + int(x[6:8])]. *)
Definition arrival_seconds (x : str) : res Z :=
  h <- py_int (slice 0 2 x) ;;
  m <- py_int (slice 3 5 x) ;;
  s <- py_int (slice 6 8 x) ;;
  Ret (h * 3600 + m * 60 + s).

(** [scheduled_arrival_seconds(training_df)]: the new column. *)
Definition scheduled_arrival_seconds (scheduled_arrival : list str) : res (list Z) :=
  apply arrival_seconds scheduled_arrival.

(** [get_service_day(day_int)] *)
Definition get_service_day (day_int : Z) : str :=
  if day_int =? 5 then "Saturday"
  else if day_int =? 6 then "Sunday"
  else "Weekday".

Definition categorical_features : list str :=
  [Py.lit "route_id"; Py.lit "track_direction"; Py.lit "stop_id";
   Py.lit "service_day"].

Definition numerical_features : list str := [Py.lit "scheduled_arrival_seconds"].

Definition target : str := "delay_seconds".

(** [s.startswith(prefix)] *)
Fixpoint startswith (prefix s : str) : bool :=
  match prefix, s with
  | [], _ => true
  | p :: prefix', c :: s' => Ascii.eqb p c && startswith prefix' s'
  | _ :: _, [] => false
  end.

(** Line 36: the feature list, from the columns of the encoded frame. *)
Definition features (columns : list str) : list str :=
  numerical_features
  ++ filter (fun col =>
               existsb (fun cat => startswith (cat ++ Py.lit "_") col)
                       categorical_features)
            columns.

End TrainModel.

Import TrainModel.

(** * The terms of the statements *)

Definition valid_time (t : time) : Prop :=
  0 <= hour t < 24 /\ 0 <= minute t < 60 /\ 0 <= second t < 60.

(** The arithmetic of lines 37-46 once both cells have parsed: the naive
    difference, plus a day when the observed clock is more than twelve
    hours behind the scheduled one. *)
Definition delay_of_times (scheduled_time actual_time : time) : Z :=
  let s := seconds_of_time scheduled_time in
  let a := seconds_of_time actual_time in
  if 12 * 3600 <? s - a then (a + 24 * 3600) - s else a - s.

(** A row of [merged_df] with the given two arrival cells. *)
Definition sample_row (scheduled actual : pyval) : merged_row :=
  mk_merged_row "1" "000000_1..S03R" "Southbound" "101S" "Van Cortlandt Park-242 St"
    20240101 "00:00:00" "AFA23GEN-1038-Sunday-00_000000_1..S03R" scheduled actual.

(** The value of a run of digits, most significant first. *)
Definition decimal (s : str) : Z :=
  fold_left (fun acc c => 10 * acc + digit_val c) s 0.

(** A field of a clock string: a non-empty run of ASCII digits, within the
    length [int] accepts. *)
Definition digits (s : str) : Prop :=
  s <> [] /\ forallb is_digit s = true /\ (List.length s <= max_str_digits)%nat.

(** What a group of the pattern can match: one or two digits. *)
Definition group (x : str) : Prop :=
  x <> [] /\ forallb is_digit x = true /\ (List.length x <= 2)%nat.

(** The digit character of [k], for [0 <= k <= 9]. *)
Definition digit_char (k : Z) : ascii := ascii_of_N (Z.to_N (48 + k)).

(** A calendar date written [YYYYMMDD], zero-padded. *)
Definition pad2 (n : Z) : str := [digit_char (n / 10); digit_char (n mod 10)].
Definition pad4 (n : Z) : str :=
  [digit_char (n / 1000); digit_char (n / 100 mod 10);
   digit_char (n / 10 mod 10); digit_char (n mod 10)].
Definition yyyymmdd (y m d : Z) : str := pad4 y ++ pad2 m ++ pad2 d.

(** The dates [datetime.date] accepts. *)
Definition valid_date (y m d : Z) : Prop :=
  1 <= y <= 9999 /\ 1 <= m <= 12 /\ 1 <= d <= days_in_month y m.

(** "Monday is 0, Sunday is 6". *)
Definition day_index (c : day_col) : Z :=
  match c with
  | Monday => 0 | Tuesday => 1 | Wednesday => 2 | Thursday => 3
  | Friday => 4 | Saturday => 5 | Sunday => 6
  end.

(** The text before the first separator, all of it when there is none. *)
Fixpoint before_sep (sep : ascii) (s : str) : str :=
  match s with
  | [] => []
  | c :: r => if Ascii.eqb c sep then [] else c :: before_sep sep r
  end.

(** The text after the first separator. *)
Fixpoint after_sep (sep : ascii) (s : str) : str :=
  match s with
  | [] => []
  | c :: r => if Ascii.eqb c sep then r else after_sep sep r
  end.

(** The start-time tokens in words: for a real-time id the text up to the
    first underscore; for a static id the text between the first and the
    second underscore (the whole id when it has no underscore). *)
Definition realtime_token (x : str) : str := before_sep "_" x.
Definition static_token (x : str) : str :=
  if contains "_" x then before_sep "_" (after_sep "_" x) else x.

(** The four-column join key of the first merge. *)
Definition same_key (o : realtime_row) (t : static_trip) : bool :=
  str_eqb (rt_route_id o) (st_route_id t)
  && str_eqb (py_str_of_int (rt_direction_id o)) (st_direction_id t)
  && str_eqb (rt_service_id o) (st_service_id t)
  && str_eqb (realtime_token (rt_trip_id o)) (static_token (st_trip_id t)).

(** The rows of [matched_trips_df] one observation gives rise to: one per
    static trip with its key, in table order. *)
Definition matched_rows_of (trips_df : list static_trip) (o : realtime_row)
  : list matched_row :=
  map (fun t => mk_matched_row o (realtime_token (rt_trip_id o))
                  (st_trip_id t) (static_token (st_trip_id t)))
      (filter (same_key o) trips_df).

(** A Sunday observation of the 1 train and two static trips that carry
    the same route, direction, service and start-time token. *)
Definition sample_observation : realtime_row :=
  mk_realtime_row 1 "1" "000600_1..S03R" 1 "Southbound" "00:06:00" 20240107
    "Van Cortlandt Park-242 St" (PyStr "00:07:30") "Sunday".

Definition sample_trip_a : static_trip :=
  mk_static_trip "AFA23GEN-1038-Sunday-00_000600_1..S03R" "1" "1" "Sunday".

Definition sample_trip_b : static_trip :=
  mk_static_trip "BFA23GEN-1093-Sunday-00_000600_1..S03R" "1" "1" "Sunday".

Definition sample_stop_times : list stop_time :=
  [mk_stop_time "AFA23GEN-1038-Sunday-00_000600_1..S03R" "101S" (PyStr "00:06:00");
   mk_stop_time "BFA23GEN-1093-Sunday-00_000600_1..S03R" "101S" (PyStr "00:06:30")].

(** The rows one row of [merged_df] leaves in the saved table: itself with
    its delay when the delay is a number of magnitude below 7200, nothing
    otherwise. *)
Definition kept (today : Z) (row : merged_row) : list final_row :=
  match calculate_delay today row with
  | Ret (Some d) => if Z.abs d <? 7200 then [mk_final_row row d] else []
  | _ => []
  end.

(** One trip with two stops, offered to a fresh pair of tables in two
    successive cycles. *)
Definition sample_feed : App.response :=
  App.Feed
    [Some (App.mk_trip_update
             (App.mk_trip_descriptor "1" "000600_1..S03R" 1 "00:06:00" "20240107")
             [App.mk_stop_time_update "101S" 1704603960 1704603990;
              App.mk_stop_time_update "103S" 1704604080 1704604110]);
     None].

Definition sample_stops (stop_id : str) : option str :=
  if str_eqb stop_id "101S" then Some (Py.lit "Van Cortlandt Park-242 St") else None.

Definition sample_clock (t : Z) : str :=
  Py.lit "00:06:00".

Section StoreTerms.

Import App.

Variable stops_df : str -> option str.
Variable local_clock : Z -> str.

(** The natural keys stored in a table, in row order. *)
Definition keys (t : table) : list (list str) :=
  map (fun r => natural_key (snd r)) (rows t).



(** The observations of one entity and of one response, in feed order. *)
Definition entity_tuples (e : entity) : list observation :=
  match e with
  | Some tu => map (App.data_tuple stops_df local_clock (tu_trip tu)) (tu_stop_time_update tu)
  | None => []
  end.

Definition response_tuples (r : response) : list observation :=
  match r with
  | Feed entities => flat_map entity_tuples entities
  | _ => []
  end.

End StoreTerms.

(** A time of day written [HH:MM:SS], zero-padded. *)
Definition clock_string (h m s : Z) : str :=
  pad2 h ++ ":"%char :: pad2 m ++ ":"%char :: pad2 s.

(** A row with the two arrival cells of [row] exchanged. *)
Definition swap_arrivals (row : merged_row) : merged_row :=
  mk_merged_row (route_id row) (trip_id_realtime row) (track_direction row)
    (stop_id row) (stop_name row) (start_date row) (start_time row)
    (trip_id_static row) (actual_arrival row) (scheduled_arrival row).

(** The columns of the encoded frame that [get_dummies] leaves as they
    are: those of [training_data.csv] that are not categorical, and the
    numerical column [main] has added. *)
Definition plain_columns : list str :=
  [Py.lit "trip_id_realtime"; Py.lit "stop_name"; Py.lit "start_date";
   Py.lit "start_time"; Py.lit "scheduled_arrival"; Py.lit "actual_arrival";
   Py.lit "delay_seconds"; Py.lit "scheduled_arrival_seconds"].

(** A one-hot column: its name starts with a categorical feature and an
    underscore. *)
Definition is_dummy (col : str) : bool :=
  existsb (fun cat => startswith (cat ++ Py.lit "_") col) categorical_features.

(** The day type of a calendar column. *)
Definition day_type (c : day_col) : str :=
  match c with
  | Saturday => "Saturday"
  | Sunday => "Sunday"
  | _ => "Weekday"
  end.

(** The decimal digits of [Decimal.uint], as characters. *)
Definition chars_of_uint (u : Decimal.uint) : str :=
  list_ascii_of_string (NilEmpty.string_of_uint u).

(** The [Decimal.uint] with the given digits (each in 0..9). *)
Fixpoint uint_of_digits (l : list Z) : Decimal.uint :=
  match l with
  | [] => Decimal.Nil
  | k :: l' =>
      let u := uint_of_digits l' in
      match k with
      | 0 => Decimal.D0 u | 1 => Decimal.D1 u | 2 => Decimal.D2 u
      | 3 => Decimal.D3 u | 4 => Decimal.D4 u | 5 => Decimal.D5 u
      | 6 => Decimal.D6 u | 7 => Decimal.D7 u | 8 => Decimal.D8 u
      | _ => Decimal.D9 u
      end
  end.

(** What step 2a makes of one row: the row with its date as an integer and
    its service id, or nothing when the lookup finds no service. *)
Definition served (calendar_df : list calendar_entry) (r : history_row)
  : list realtime_row :=
  match get_service_id_for_date (h_start_date r) calendar_df with
  | Ret (Some sid) => [with_service r (decimal (h_start_date r)) sid]
  | _ => []
  end.

(** A date text of eight digits naming a calendar date from the year 1000
    on. *)
Definition date_text (x : str) : Prop :=
  exists y m d, valid_date y m d /\ 1000 <= y /\ x = yyyymmdd y m d.

(** Two rows of the historical table, a Saturday and a Sunday. *)
Definition sample_history : list history_row :=
  [mk_history_row 1 "1" "000600_1..S03R" 1 "Southbound" "00:06:00" "20240106"
     "Van Cortlandt Park-242 St" (PyStr "00:07:30");
   mk_history_row 2 "1" "000600_1..S03R" 1 "Southbound" "00:06:00" "20240107"
     "Van Cortlandt Park-242 St" (PyStr "00:07:30")].

Definition sample_calendar : list calendar_entry :=
  [mk_calendar_entry "Weekday" 1 1 1 1 1 0 0 20240101 20241231;
   mk_calendar_entry "Sunday" 0 0 0 0 0 0 1 20240101 20241231].

(** The Sunday row after step 2a. *)
Definition sample_observation_2 : realtime_row :=
  mk_realtime_row 2 "1" "000600_1..S03R" 1 "Southbound" "00:06:00" 20240107
    "Van Cortlandt Park-242 St" (PyStr "00:07:30") "Sunday".

(** The flag of a calendar entry for a weekday number, Monday being 0 and
    Sunday 6: the column of [calendar.txt] named after that day. *)
Definition weekday_flag (day_of_week : Z) (e : calendar_entry) : Z :=
  if day_of_week =? 0 then monday e
  else if day_of_week =? 1 then tuesday e
  else if day_of_week =? 2 then wednesday e
  else if day_of_week =? 3 then thursday e
  else if day_of_week =? 4 then friday e
  else if day_of_week =? 5 then saturday e
  else if day_of_week =? 6 then sunday e
  else 0.

(** An entry is active on a date when its inclusive window holds the date
    and its flag for the date's weekday is 1. *)
Definition active_on (y m d : Z) (e : calendar_entry) : bool :=
  (cal_start_date e <=? 10000 * y + 100 * m + d)
  && (10000 * y + 100 * m + d <=? cal_end_date e)
  && (weekday_flag (weekday (mk_date y m d)) e =? 1).

(** Three overlapping calendar entries. *)
Definition sample_overlapping_calendar : list calendar_entry :=
  [mk_calendar_entry "Weekday" 1 1 1 1 1 0 0 20240101 20241231;
   mk_calendar_entry "Saturday" 0 0 0 0 0 1 0 20240101 20241231;
   mk_calendar_entry "Weekend" 0 0 0 0 0 1 1 20230101 20251231].




(** The observation [sample_feed] yields for its second stop. *)
Definition sample_stored_observation : App.observation :=
  App.mk_observation "1" "000600_1..S03R" 1 "Southbound" "00:06:00"
    "20240107" "103S" "00:06:00" "00:06:00".

(** * Properties *)

(** ** The result monad *)

Lemma bind_ret_inv {A B : Type} (c : res A) (k : A -> res B) (b : B) :
  Py.bind c k = Ret b -> exists a, c = Ret a /\ k a = Ret b.
Proof. destruct c as [a|e]; simpl; intros H; [eauto | discriminate]. Qed.

Ltac bind_inv H :=
  let a := fresh "v" in
  let Ha := fresh "Hv" in
  apply bind_ret_inv in H; destruct H as (a & Ha & H).

(** ** Clock arithmetic *)

Lemma seconds_of_valid_time t :
  valid_time t -> 0 <= seconds_of_time t < 86400.
Proof. unfold valid_time, seconds_of_time. lia. Qed.

Lemma time_of_seconds_valid n :
  0 <= n < 86400 -> valid_time (time_of_seconds n).
Proof.
  intros Hn. unfold valid_time, time_of_seconds; cbn [hour minute second].
  repeat split; Z.to_euclidean_division_equations; lia.
Qed.

Lemma seconds_of_time_of_seconds n :
  seconds_of_time (time_of_seconds n) = n.
Proof.
  unfold seconds_of_time, time_of_seconds; cbn [hour minute second].
  Z.to_euclidean_division_equations; lia.
Qed.

Lemma time_of_seconds_of_time t :
  valid_time t -> time_of_seconds (seconds_of_time t) = t.
Proof.
  destruct t as [h m s].
  unfold valid_time, seconds_of_time, time_of_seconds; cbn [hour minute second].
  intros (Hh & Hm & Hs). f_equal; Z.to_euclidean_division_equations; lia.
Qed.

Lemma time_new_valid h m s t : time_new h m s = Ret t -> t = mk_time h m s /\ valid_time t.
Proof.
  unfold time_new, valid_time.
  destruct (0 <=? h) eqn:E1, (h <=? 23) eqn:E2; simpl; try discriminate.
  destruct (0 <=? m) eqn:E3, (m <=? 59) eqn:E4; simpl; try discriminate.
  destruct (0 <=? s) eqn:E5, (s <=? 59) eqn:E6; simpl; try discriminate.
  intros H; inversion H; subst; simpl. split; [reflexivity | lia].
Qed.

Lemma datetime_add_time dt td r :
  datetime_add dt td = Ret r ->
  dt_time r = time_of_seconds ((seconds_of_time (dt_time dt) + td_seconds td) mod 86400)
  /\ valid_time (dt_time r).
Proof.
  unfold datetime_add.
  destruct (_ && _); [|discriminate].
  intros H; inversion H; subst; simpl. split; [reflexivity|].
  apply time_of_seconds_valid. apply Z.mod_pos_bound. lia.
Qed.

Lemma strptime_HMS_valid s dt : strptime_HMS s = Ret dt -> valid_time (dt_time dt).
Proof.
  unfold strptime_HMS.
  destruct (re_matches s) as [|[[[h m] sec] rest] ?]; [discriminate|].
  destruct rest; [|discriminate].
  intros H. bind_inv H. bind_inv H. bind_inv H.
  unfold datetime_new in H. bind_inv H. bind_inv H.
  inversion H; subst; simpl.
  apply time_new_valid in Hv3. tauto.
Qed.

Lemma try_except_ret_inv {A : Type} (c : res A) caught h (a : A) :
  try_except c caught h = Ret a ->
  c = Ret a \/ (exists e, c = Raise e /\ existsb (exn_eqb e) caught = true /\ h = Ret a).
Proof.
  unfold try_except. destruct c as [x|e]; [intros H; now left|].
  destruct (existsb _ _) eqn:E; [|discriminate].
  intros H; right; eauto.
Qed.

(** Whatever [robust_time_parser] returns is a time of day. *)
Lemma robust_time_parser_valid v t :
  robust_time_parser v = Ret (Some t) -> valid_time t.
Proof.
  destruct v as [| |z|s]; simpl; try discriminate.
  intros H. apply try_except_ret_inv in H. destruct H as [H|(e & _ & _ & H)].
  - bind_inv H. inversion H; subst. eapply strptime_HMS_valid; eauto.
  - apply try_except_ret_inv in H. destruct H as [H|(e' & _ & _ & H)]; [|discriminate].
    do 5 bind_inv H. inversion H; subst.
    apply datetime_add_time in Hv3. tauto.
Qed.

(** ** [calculate_delay] *)

Lemma total_seconds_datetime_sub a b :
  total_seconds (datetime_sub a b)
  = 86400 * (dt_ordinal a - dt_ordinal b)
    + (seconds_of_time (dt_time a) - seconds_of_time (dt_time b)).
Proof.
  unfold total_seconds, datetime_sub; cbn [td_days td_seconds].
  Z.to_euclidean_division_equations; lia.
Qed.

(** With both times in hand [calculate_delay] is the arithmetic above; the
    only way it can still raise is the day added on 9999-12-31. *)
Lemma calculate_delay_parsed today row ts ta :
  robust_time_parser (scheduled_arrival row) = Ret (Some ts) ->
  robust_time_parser (actual_arrival row) = Ret (Some ta) ->
  calculate_delay today row =
    if (seconds_of_time ta <? seconds_of_time ts)
       && (12 * 3600 <? seconds_of_time ts - seconds_of_time ta)
       && negb ((1 <=? today + 1) && (today + 1 <=? MAXORDINAL))
    then Raise OverflowError
    else Ret (Some (delay_of_times ts ta)).
Proof.
  intros Hs Ha.
  pose proof (seconds_of_valid_time _ (robust_time_parser_valid _ _ Hs)) as Bs.
  pose proof (seconds_of_valid_time _ (robust_time_parser_valid _ _ Ha)) as Ba.
  unfold calculate_delay. rewrite Hs, Ha. cbn [Py.bind].
  rewrite total_seconds_datetime_sub.
  unfold datetime_ltb, datetime_combine; cbn [dt_ordinal dt_time].
  rewrite Z.ltb_irrefl, Z.eqb_refl, Z.sub_diag. cbn [orb andb].
  replace (86400 * 0 + (seconds_of_time ts - seconds_of_time ta))
    with (seconds_of_time ts - seconds_of_time ta) by lia.
  unfold delay_of_times.
  destruct (seconds_of_time ta <? seconds_of_time ts) eqn:E1; cbn [andb].
  - destruct (12 * 3600 <? seconds_of_time ts - seconds_of_time ta) eqn:E2; cbn [andb].
    + unfold timedelta_new. cbn [Py.bind].
      change (Z.abs ((86400 * 1 + 3600 * 0 + 60 * 0 + 0) / 86400) <=? 999999999) with true.
      cbn iota. cbn [Py.bind].
      unfold datetime_add. cbn [dt_ordinal dt_time td_days td_seconds].
      change ((86400 * 1 + 3600 * 0 + 60 * 0 + 0) / 86400) with 1.
      change ((86400 * 1 + 3600 * 0 + 60 * 0 + 0) mod 86400) with 0.
      rewrite Z.add_0_r.
      rewrite (Z.div_small (seconds_of_time ta) 86400) by lia.
      rewrite (Z.mod_small (seconds_of_time ta) 86400) by lia.
      rewrite Z.add_0_r.
      destruct ((1 <=? today + 1) && (today + 1 <=? MAXORDINAL)); cbn [negb Py.bind].
      * rewrite total_seconds_datetime_sub. cbn [dt_ordinal dt_time].
        rewrite seconds_of_time_of_seconds. do 2 f_equal. lia.
      * reflexivity.
    + cbn [Py.bind]. rewrite total_seconds_datetime_sub. cbn [dt_ordinal dt_time].
      do 2 f_equal. lia.
  - cbn [Py.bind]. rewrite total_seconds_datetime_sub. cbn [dt_ordinal dt_time].
    assert ((12 * 3600 <? seconds_of_time ts - seconds_of_time ta) = false) as ->
      by (apply Z.ltb_ge; apply Z.ltb_ge in E1; lia).
    do 2 f_equal. lia.
Qed.

Lemma calculate_delay_ret_inv today row r :
  calculate_delay today row = Ret r ->
  exists s a,
    robust_time_parser (scheduled_arrival row) = Ret s
    /\ robust_time_parser (actual_arrival row) = Ret a
    /\ match s, a with
       | Some ts, Some ta => r = Some (delay_of_times ts ta)
       | _, _ => r = None
       end.
Proof.
  intros H.
  destruct (robust_time_parser (scheduled_arrival row)) as [s|e] eqn:Hs;
    [|unfold calculate_delay in H; rewrite Hs in H; discriminate].
  destruct (robust_time_parser (actual_arrival row)) as [a|e] eqn:Ha;
    [|unfold calculate_delay in H; rewrite Hs, Ha in H; discriminate].
  exists s, a. do 2 (split; [reflexivity|]).
  destruct s as [ts|], a as [ta|].
  - rewrite (calculate_delay_parsed today row ts ta Hs Ha) in H.
    destruct (_ && _ && _); [discriminate|]. now inversion H.
  - unfold calculate_delay in H. rewrite Hs, Ha in H. now inversion H.
  - unfold calculate_delay in H. rewrite Hs, Ha in H. now inversion H.
  - unfold calculate_delay in H. rewrite Hs, Ha in H. now inversion H.
Qed.

Lemma delay_of_times_bounds ts ta :
  valid_time ts -> valid_time ta ->
  - 43200 <= delay_of_times ts ta < 86400.
Proof.
  intros Hs Ha. apply seconds_of_valid_time in Hs, Ha.
  unfold delay_of_times. cbv zeta.
  destruct (12 * 3600 <? seconds_of_time ts - seconds_of_time ta) eqn:E.
  - apply Z.ltb_lt in E. lia.
  - apply Z.ltb_ge in E. lia.
Qed.

(** C4.  When both cells parse and the observed clock is more than twelve
    hours behind the scheduled one, a day is added to the observed time
    before the difference is taken; otherwise the difference is the naive
    one.  Scheduled 23:58:00 with observed 00:02:00 gives +240, scheduled
    08:00:00 with observed 08:05:30 gives +330: positive is late.  ([today]
    is any date before 9999-12-31, the last one Python can add a day to.) *)
Theorem calculate_delay_overnight today row ts ta :
  1 <= today < MAXORDINAL ->
  robust_time_parser (scheduled_arrival row) = Ret (Some ts) ->
  robust_time_parser (actual_arrival row) = Ret (Some ta) ->
  calculate_delay today row
    = Ret (Some (if 12 * 3600 <? seconds_of_time ts - seconds_of_time ta
                 then (seconds_of_time ta + 24 * 3600) - seconds_of_time ts
                 else seconds_of_time ta - seconds_of_time ts))
  /\ calculate_delay today (sample_row (PyStr "23:58:00") (PyStr "00:02:00"))
     = Ret (Some 240)
  /\ calculate_delay today (sample_row (PyStr "08:00:00") (PyStr "08:05:30"))
     = Ret (Some 330).
Proof.
  intros Ht Hs Ha.
  assert (G : forall r s a, robust_time_parser (scheduled_arrival r) = Ret (Some s) ->
                            robust_time_parser (actual_arrival r) = Ret (Some a) ->
                            calculate_delay today r = Ret (Some (delay_of_times s a))).
  { intros r s a H1 H2. rewrite (calculate_delay_parsed today r s a H1 H2).
    replace ((1 <=? today + 1) && (today + 1 <=? MAXORDINAL)) with true
      by (symmetry; apply andb_true_iff; split; apply Z.leb_le; lia).
    cbn [negb]. now rewrite andb_false_r. }
  split; [|split].
  - apply (G row ts ta Hs Ha).
  - apply (G _ (mk_time 23 58 0) (mk_time 0 2 0)); reflexivity.
  - apply (G _ (mk_time 8 0 0) (mk_time 8 5 30)); reflexivity.
Qed.

Lemma calculate_delay_overnight_witness :
  calculate_delay 738886 (sample_row (PyStr "25:10:00") (PyStr "00:40:00"))
  = Ret (Some (-1800)).
Proof.
  apply (calculate_delay_overnight 738886
           (sample_row (PyStr "25:10:00") (PyStr "00:40:00"))
           (mk_time 1 10 0) (mk_time 0 40 0)).
  - unfold MAXORDINAL. lia.
  - reflexivity.
  - reflexivity.
Defined.

(** C10.  Whenever [calculate_delay] returns a number, it lies in
    [-43200, 86400): at most twelve hours early, less than a day late. *)
Theorem calculate_delay_range today row d :
  calculate_delay today row = Ret (Some d) ->
  - 43200 <= d < 86400.
Proof.
  intros H. apply calculate_delay_ret_inv in H.
  destruct H as (s & a & Hs & Ha & H).
  destruct s as [ts|], a as [ta|]; try discriminate.
  inversion H; subst.
  apply delay_of_times_bounds; eapply robust_time_parser_valid; eauto.
Qed.

Lemma calculate_delay_range_witness :
  - 43200 <= - 43200 < 86400.
Proof.
  apply (calculate_delay_range 738886
           (sample_row (PyStr "12:00:00") (PyStr "00:00:00")) (- 43200)).
  reflexivity.
Defined.

(** C3.  The time parser lets an exception escape: on the string
    ["-1:00:00"] the standard format fails, the fall-back reads the hour
    -1, and [datetime.min + timedelta(hours=-1)] raises [OverflowError],
    which the [except (ValueError, IndexError)] clause does not catch.  An
    hour field past the year 9999 does the same. *)
Theorem robust_time_parser_overflow_escapes :
  robust_time_parser (PyStr "-1:00:00") = Raise OverflowError
  /\ robust_time_parser (PyStr "87649416:00:00") = Raise OverflowError.
Proof. split; reflexivity. Qed.

(** C8.  [calculate_delay] does not return [None] on every pair with an
    unparseable side: both cells are parsed before the [None] test, so the
    [OverflowError] of the parser passes through it, even when the other
    cell has already failed to parse. *)
Theorem calculate_delay_overflow_escapes today :
  robust_time_parser (PyStr "not a time") = Ret None
  /\ calculate_delay today (sample_row (PyStr "not a time") (PyStr "-1:00:00"))
     = Raise OverflowError
  /\ calculate_delay today (sample_row (PyStr "-1:00:00") (PyStr "08:00:00"))
     = Raise OverflowError.
Proof. repeat split; reflexivity. Qed.

(** On the pairs where neither parse raises, the [None] test of line 34 is
    exact: [None] if and only if one side failed to parse. *)
Lemma calculate_delay_none_iff today row s a :
  robust_time_parser (scheduled_arrival row) = Ret s ->
  robust_time_parser (actual_arrival row) = Ret a ->
  (calculate_delay today row = Ret None <-> s = None \/ a = None).
Proof.
  intros Hs Ha. split.
  - intros H. apply calculate_delay_ret_inv in H.
    destruct H as (s' & a' & Hs' & Ha' & H).
    rewrite Hs in Hs'; rewrite Ha in Ha'. inversion Hs'; inversion Ha'; subst.
    destruct s' as [ts|], a' as [ta|]; try discriminate; tauto.
  - unfold calculate_delay. rewrite Hs, Ha. cbn [Py.bind].
    intros [-> | ->]; [reflexivity | now destruct s].
Qed.

(** ** Decimal fields *)

Lemma scan_digits_all acc n s :
  forallb is_digit s = true ->
  scan_digits false acc n s
  = Some (fold_left (fun acc c => 10 * acc + digit_val c) s acc,
          (n + List.length s)%nat, []).
Proof.
  revert acc n. induction s as [|c r IH]; intros acc n H.
  - cbn. now rewrite Nat.add_0_r.
  - cbn [forallb] in H. apply andb_true_iff in H. destruct H as [Hc Hr].
    cbn [scan_digits fold_left List.length]. rewrite Hc, (IH _ _ Hr).
    replace (S n + List.length r)%nat with (n + S (List.length r))%nat by lia.
    reflexivity.
Qed.

Lemma is_digit_not c x :
  is_digit c = true -> is_digit x = false -> Ascii.eqb c x = false.
Proof.
  intros Hc Hx. destruct (Ascii.eqb_spec c x) as [->|]; [congruence | reflexivity].
Qed.

Lemma is_digit_not_space c : is_digit c = true -> is_space c = false.
Proof.
  unfold is_digit, is_space. intros H. apply andb_true_iff in H.
  destruct H as [H1 H2]. apply Z.leb_le in H1, H2.
  apply orb_false_iff. split.
  - apply Z.eqb_neq. lia.
  - apply andb_false_iff. right. apply Z.leb_gt. lia.
Qed.

(** [int] reads a digit field as its decimal value. *)
Lemma py_int_digits s : digits s -> py_int s = Ret (decimal s).
Proof.
  intros (Hne & Hd & Hlen). destruct s as [|c r]; [contradiction|].
  pose proof Hd as Hd'. cbn [forallb] in Hd'. apply andb_true_iff in Hd'.
  destruct Hd' as [Hc _].
  unfold py_int. cbn [lstrip]. rewrite (is_digit_not_space _ Hc).
  rewrite (is_digit_not c "+" Hc eq_refl), (is_digit_not c "-" Hc eq_refl).
  rewrite (is_digit_not c "_" Hc eq_refl).
  rewrite (scan_digits_all 0 0 (c :: r) Hd).
  cbn [Nat.add List.length Nat.eqb].
  apply Nat.ltb_ge in Hlen. cbn [List.length] in Hlen. rewrite Hlen.
  reflexivity.
Qed.

Lemma py_int_raises s e : py_int s = Raise e -> e = ValueError.
Proof.
  unfold py_int.
  destruct (match lstrip s with
            | [] => (false, lstrip s)
            | c :: r => if Ascii.eqb c "+" then (false, r)
                        else if Ascii.eqb c "-" then (true, r) else (false, lstrip s)
            end) as [neg s2].
  destruct s2 as [|c r]; [congruence|].
  destruct (Ascii.eqb c "_"); [congruence|].
  destruct (scan_digits _ _ _ _) as [[[v n] rest]|]; [|congruence].
  destruct (Nat.eqb n 0); [congruence|].
  destruct (Nat.ltb _ _); [congruence|].
  destruct (forallb _ _); congruence.
Qed.

(** ** [split] *)

Lemma split_no_sep sep f :
  forallb (fun c => negb (Ascii.eqb c sep)) f = true -> split sep f = [f].
Proof.
  induction f as [|c r IH]; intros H; [reflexivity|].
  cbn [forallb] in H. apply andb_true_iff in H. destruct H as [Hc Hr].
  cbn [split]. apply negb_true_iff in Hc. rewrite Hc, (IH Hr). reflexivity.
Qed.

Lemma split_app_sep sep f rest :
  forallb (fun c => negb (Ascii.eqb c sep)) f = true ->
  split sep (f ++ sep :: rest) = f :: split sep rest.
Proof.
  induction f as [|c r IH]; intros H.
  - cbn [app split]. now rewrite Ascii.eqb_refl.
  - cbn [forallb] in H. apply andb_true_iff in H. destruct H as [Hc Hr].
    cbn [app split]. apply negb_true_iff in Hc. rewrite Hc, (IH Hr). reflexivity.
Qed.

Lemma digits_no_colon f :
  forallb is_digit f = true -> forallb (fun c => negb (Ascii.eqb c ":")) f = true.
Proof.
  intros H. rewrite forallb_forall in *. intros c Hc.
  apply negb_true_iff, is_digit_not; [auto | reflexivity].
Qed.

Lemma split_clock hs ms ss :
  forallb is_digit hs = true -> forallb is_digit ms = true ->
  forallb is_digit ss = true ->
  split ":" (hs ++ ":"%char :: ms ++ ":"%char :: ss) = [hs; ms; ss].
Proof.
  intros H1 H2 H3.
  rewrite split_app_sep by now apply digits_no_colon.
  rewrite split_app_sep by now apply digits_no_colon.
  rewrite split_no_sep by now apply digits_no_colon.
  reflexivity.
Qed.

(** ** [strptime] with the format [%H:%M:%S] *)

Lemma group_digits x : group x -> digits x.
Proof.
  intros (H1 & H2 & H3). repeat split; auto.
  apply Nat.le_trans with (1 := H3). apply Nat.leb_le. reflexivity.
Qed.

Lemma in_range_digit lo hi c :
  48 <= code lo -> code hi <= 57 -> in_range lo hi c = true -> is_digit c = true.
Proof.
  unfold in_range, is_digit. intros Hlo Hhi H.
  apply andb_true_iff in H. destruct H as [H1 H2]. apply Z.leb_le in H1, H2.
  apply andb_true_iff. split; apply Z.leb_le; lia.
Qed.

Lemma alt2_sound p1 p2 s x r :
  (forall c, p1 c = true -> is_digit c = true) ->
  (forall c, p2 c = true -> is_digit c = true) ->
  In (x, r) (alt2 p1 p2 s) -> s = x ++ r /\ group x.
Proof.
  intros Hp1 Hp2. unfold alt2.
  destruct s as [|c1 [|c2 s']]; try contradiction.
  destruct (p1 c1) eqn:E1; [|contradiction].
  destruct (p2 c2) eqn:E2; [|contradiction].
  cbn [andb In]. intros [H|[]]. inversion H; subst.
  split; [reflexivity|]. repeat split; [discriminate| |cbn; lia].
  cbn [forallb]. now rewrite (Hp1 _ E1), (Hp2 _ E2).
Qed.

Lemma alt1_sound s x r :
  In (x, r) (alt1 is_digit s) -> s = x ++ r /\ group x.
Proof.
  unfold alt1. destruct s as [|c s']; [contradiction|].
  destruct (is_digit c) eqn:E; [|contradiction].
  intros [H|[]]. inversion H; subst.
  split; [reflexivity|]. repeat split; [discriminate| |cbn; lia].
  cbn [forallb]. now rewrite E.
Qed.

Ltac range_digit := intros ?; apply in_range_digit; vm_compute; discriminate.

Lemma re_H_sound s x r : In (x, r) (re_H s) -> s = x ++ r /\ group x.
Proof.
  unfold re_H. rewrite !in_app_iff. intros [H|[H|H]].
  - eapply alt2_sound; [| |exact H]; range_digit.
  - eapply alt2_sound; [| |exact H]; [range_digit | auto].
  - now apply alt1_sound.
Qed.

Lemma re_M_sound s x r : In (x, r) (re_M s) -> s = x ++ r /\ group x.
Proof.
  unfold re_M. rewrite !in_app_iff. intros [H|H].
  - eapply alt2_sound; [| |exact H]; [range_digit | auto].
  - now apply alt1_sound.
Qed.

Lemma re_S_sound s x r : In (x, r) (re_S s) -> s = x ++ r /\ group x.
Proof.
  unfold re_S. rewrite !in_app_iff. intros [H|[H|H]].
  - eapply alt2_sound; [| |exact H]; range_digit.
  - eapply alt2_sound; [| |exact H]; [range_digit | auto].
  - now apply alt1_sound.
Qed.

Lemma re_colon_sound s r : In r (re_colon s) -> s = ":"%char :: r.
Proof.
  unfold re_colon. destruct s as [|c s']; [contradiction|].
  destruct (Ascii.eqb_spec c ":"); [|contradiction].
  intros [H|[]]. now subst.
Qed.

(** Every match the pattern finds cuts the text into three digit groups
    around two colons. *)
Lemma re_matches_sound s h m sec rest :
  In (h, m, sec, rest) (re_matches s) ->
  s = h ++ ":"%char :: m ++ ":"%char :: sec ++ rest
  /\ group h /\ group m /\ group sec.
Proof.
  unfold re_matches. intros H.
  apply in_flat_map in H. destruct H as ([h' r1] & Hh & H).
  apply in_flat_map in H. destruct H as (r2 & Hc1 & H).
  apply in_flat_map in H. destruct H as ([m' r3] & Hm & H).
  apply in_flat_map in H. destruct H as (r4 & Hc2 & H).
  apply in_map_iff in H. destruct H as ([sec' r5] & E & Hs).
  inversion E; subst.
  apply re_H_sound in Hh. apply re_M_sound in Hm. apply re_S_sound in Hs.
  apply re_colon_sound in Hc1, Hc2.
  destruct Hh as [-> Gh], Hm as [-> Gm], Hs as [-> Gs]. subst.
  auto.
Qed.

(** When [strptime] accepts a string, the string is three digit fields
    around two colons and the time is made of their values. *)
Lemma strptime_HMS_ret s dt :
  strptime_HMS s = Ret dt ->
  exists h m sec,
    split ":" s = [h; m; sec] /\ digits h /\ digits m /\ digits sec
    /\ dt_time dt = mk_time (decimal h) (decimal m) (decimal sec)
    /\ valid_time (dt_time dt).
Proof.
  unfold strptime_HMS.
  destruct (re_matches s) as [|[[[h m] sec] rest] tl] eqn:E; [discriminate|].
  destruct rest; [|discriminate].
  assert (Hin : In (h, m, sec, []) (re_matches s)) by (rewrite E; now left).
  apply re_matches_sound in Hin. destruct Hin as (Hs & Gh & Gm & Gs).
  rewrite app_nil_r in Hs.
  apply group_digits in Gh, Gm, Gs.
  rewrite (py_int_digits _ Gh), (py_int_digits _ Gm), (py_int_digits _ Gs).
  cbn [Py.bind]. unfold datetime_new. intros H. bind_inv H. bind_inv H.
  inversion H; subst dt. cbn [dt_time].
  apply time_new_valid in Hv0. destruct Hv0 as [-> Hval].
  exists h, m, sec.
  refine (conj _ (conj Gh (conj Gm (conj Gs (conj eq_refl Hval))))).
  rewrite Hs. apply split_clock; [apply Gh | apply Gm | apply Gs].
Qed.

Lemma strptime_HMS_raises s e : strptime_HMS s = Raise e -> e = ValueError.
Proof.
  unfold strptime_HMS.
  destruct (re_matches s) as [|[[[h m] sec] rest] tl]; [congruence|].
  destruct rest; [|congruence].
  destruct (py_int h) as [hv|e1] eqn:E1;
    [|cbn; intros H; inversion H; subst; eapply py_int_raises; eauto].
  destruct (py_int m) as [mv|e2] eqn:E2;
    [|cbn; intros H; inversion H; subst; eapply py_int_raises; eauto].
  destruct (py_int sec) as [sv|e3] eqn:E3;
    [|cbn; intros H; inversion H; subst; eapply py_int_raises; eauto].
  cbn [Py.bind]. unfold datetime_new, date_new, time_new.
  repeat match goal with
         | |- context [if ?b then _ else _] => destruct b; cbn [Py.bind]
         end; congruence.
Qed.

(** ** [robust_time_parser] *)

Lemma digit_val_bounds c : is_digit c = true -> 0 <= digit_val c <= 9.
Proof.
  unfold is_digit, digit_val. intros H. apply andb_true_iff in H.
  destruct H as [H1 H2]. apply Z.leb_le in H1, H2. lia.
Qed.

Lemma decimal_nonneg s : forallb is_digit s = true -> 0 <= decimal s.
Proof.
  assert (G : forall s acc, forallb is_digit s = true -> 0 <= acc ->
              0 <= fold_left (fun acc c => 10 * acc + digit_val c) s acc).
  { clear. induction s as [|c r IH]; intros acc H Hacc; [exact Hacc|].
    cbn [forallb] in H. apply andb_true_iff in H. destruct H as [Hc Hr].
    cbn [fold_left]. apply IH; [exact Hr|].
    pose proof (digit_val_bounds _ Hc). lia. }
  intros H. apply G; [exact H | lia].
Qed.

(** [datetime.min + timedelta(hours=h, minutes=m, seconds=s)]: inside the
    calendar it is the clock time of the total modulo a day, outside it
    is an [OverflowError]. *)
Lemma datetime_min_plus h m s :
  let total := 3600 * h + 60 * m + s in
  (td <- timedelta_new 0 h m s ;; datetime_add datetime_min td)
  = if (0 <=? total) && (total <? MAXORDINAL * 86400)
    then Ret (mk_datetime (1 + total / 86400) (time_of_seconds (total mod 86400)))
    else Raise OverflowError.
Proof.
  intros total. unfold timedelta_new.
  replace (86400 * 0 + 3600 * h + 60 * m + s) with total by (unfold total; lia).
  pose proof (Z.mod_pos_bound total 86400 ltac:(lia)) as Hm.
  unfold MAXORDINAL.
  destruct (Z.abs (total / 86400) <=? 999999999) eqn:E1; cbn [Py.bind].
  - unfold datetime_add, datetime_min; cbn [dt_ordinal dt_time td_days td_seconds].
    change (seconds_of_time (mk_time 0 0 0)) with 0. rewrite Z.add_0_l.
    rewrite (Z.div_small (total mod 86400)) by lia.
    rewrite (Z.mod_small (total mod 86400)) by lia.
    rewrite Z.add_0_r. unfold MAXORDINAL.
    apply Z.leb_le in E1.
    destruct ((0 <=? total) && (total <? 3652059 * 86400)) eqn:E2.
    + apply andb_true_iff in E2. destruct E2 as [E2 E3].
      apply Z.leb_le in E2. apply Z.ltb_lt in E3.
      replace ((1 <=? 1 + total / 86400) && (1 + total / 86400 <=? 3652059)) with true;
        [reflexivity|].
      symmetry. apply andb_true_iff. split; apply Z.leb_le;
        Z.to_euclidean_division_equations; lia.
    + replace ((1 <=? 1 + total / 86400) && (1 + total / 86400 <=? 3652059)) with false;
        [reflexivity|].
      symmetry. apply andb_false_iff. apply andb_false_iff in E2.
      destruct E2 as [E2|E2]; [left; apply Z.leb_gt in E2|right; apply Z.ltb_ge in E2];
        apply Z.leb_gt; Z.to_euclidean_division_equations; lia.
  - apply Z.leb_gt in E1.
    replace ((0 <=? total) && (total <? 3652059 * 86400)) with false; [reflexivity|].
    symmetry. apply andb_false_iff.
    destruct (Z.le_gt_cases 0 total) as [Hp|Hn].
    + right. apply Z.ltb_ge. Z.to_euclidean_division_equations; lia.
    + left. apply Z.leb_gt. lia.
Qed.

(** The fall-back branch (lines 18-24) on three fields that [int] reads. *)
Lemma fallback_three_fields s p0 p1 p2 rest h m sec :
  split ":" s = p0 :: p1 :: p2 :: rest ->
  py_int p0 = Ret h -> py_int p1 = Ret m -> py_int p2 = Ret sec ->
  strptime_HMS s = Raise ValueError ->
  robust_time_parser (PyStr s)
  = let total := 3600 * h + 60 * m + sec in
    if (0 <=? total) && (total <? MAXORDINAL * 86400)
    then Ret (Some (time_of_seconds (total mod 86400)))
    else Raise OverflowError.
Proof.
  intros Hsplit H0 H1 H2 Hstd.
  unfold robust_time_parser. rewrite Hstd.
  cbn [Py.bind try_except existsb exn_eqb orb].
  rewrite Hsplit. unfold index. cbn [nth_error Py.bind].
  rewrite H0, H1, H2. cbn [Py.bind].
  pose proof (datetime_min_plus h m sec) as P. cbv zeta in P |- *.
  destruct (timedelta_new 0 h m sec) as [td|e]; cbn [Py.bind] in P |- *.
  - rewrite P. destruct (_ && _); reflexivity.
  - revert P. destruct (_ && _); intros P; [discriminate|].
    inversion P. reflexivity.
Qed.

(** A clock string of three digit fields: the parser returns the time of
    day, the total taken modulo 24 hours, unless the hour field runs past
    the year 9999. *)
Lemma robust_time_parser_fields hs ms ss :
  digits hs -> digits ms -> digits ss ->
  let total := 3600 * decimal hs + 60 * decimal ms + decimal ss in
  robust_time_parser (PyStr (hs ++ ":"%char :: ms ++ ":"%char :: ss))
  = if total <? MAXORDINAL * 86400
    then Ret (Some (time_of_seconds (total mod 86400)))
    else Raise OverflowError.
Proof.
  intros Hh Hm Hs total.
  pose proof (decimal_nonneg hs (proj1 (proj2 Hh))) as Ph.
  pose proof (decimal_nonneg ms (proj1 (proj2 Hm))) as Pm.
  pose proof (decimal_nonneg ss (proj1 (proj2 Hs))) as Ps.
  assert (Hsplit : split ":" (hs ++ ":"%char :: ms ++ ":"%char :: ss) = [hs; ms; ss])
    by (apply split_clock; [apply Hh | apply Hm | apply Hs]).
  destruct (strptime_HMS (hs ++ ":"%char :: ms ++ ":"%char :: ss)) as [dt|e] eqn:E.
  - unfold robust_time_parser. rewrite E. cbn [Py.bind try_except].
    apply strptime_HMS_ret in E.
    destruct E as (h & m & sec & Hsp & _ & _ & _ & Hdt & Hval).
    rewrite Hsplit in Hsp. inversion Hsp; subst h m sec. clear Hsp.
    rewrite Hdt in Hval |- *.
    pose proof (seconds_of_valid_time _ Hval) as B.
    change (seconds_of_time (mk_time (decimal hs) (decimal ms) (decimal ss)))
      with total in B.
    replace (total <? MAXORDINAL * 86400) with true
      by (symmetry; apply Z.ltb_lt; unfold MAXORDINAL; lia).
    rewrite Z.mod_small by lia.
    change total with (seconds_of_time (mk_time (decimal hs) (decimal ms) (decimal ss))).
    now rewrite time_of_seconds_of_time.
  - apply strptime_HMS_raises in E as E'. subst e.
    rewrite (fallback_three_fields _ hs ms ss [] _ _ _ Hsplit
               (py_int_digits _ Hh) (py_int_digits _ Hm) (py_int_digits _ Hs) E).
    cbv zeta. fold total.
    replace (0 <=? total) with true by (symmetry; apply Z.leb_le; unfold total; lia).
    reflexivity.
Qed.

(** A string with fewer than three colon-separated fields, or with one of
    the first three that [int] rejects, parses to [None]. *)
Lemma robust_time_parser_bad_field s i :
  (i < 3)%nat ->
  match nth_error (split ":" s) i with
  | Some f => exists e, py_int f = Raise e
  | None => True
  end ->
  robust_time_parser (PyStr s) = Ret None.
Proof.
  intros Hi Hbad.
  destruct (strptime_HMS s) as [dt|e] eqn:E.
  - exfalso. apply strptime_HMS_ret in E.
    destruct E as (h & m & sec & Hsp & Gh & Gm & Gs & _).
    rewrite Hsp in Hbad.
    destruct i as [|[|[|i]]]; [| | |lia]; cbn [nth_error] in Hbad;
      destruct Hbad as [e He];
      [rewrite (py_int_digits _ Gh) in He
      |rewrite (py_int_digits _ Gm) in He
      |rewrite (py_int_digits _ Gs) in He]; discriminate.
  - apply strptime_HMS_raises in E as E'. subst e.
    unfold robust_time_parser. rewrite E.
    cbn [Py.bind try_except existsb exn_eqb orb].
    unfold index.
    destruct (nth_error (split ":" s) 0) as [p0|] eqn:N0; [|reflexivity].
    cbn [Py.bind].
    destruct (py_int p0) as [h|e0] eqn:P0;
      [|apply py_int_raises in P0; subst e0; reflexivity].
    destruct i as [|i]; [rewrite N0 in Hbad; destruct Hbad as [e He]; congruence|].
    cbn [Py.bind].
    destruct (nth_error (split ":" s) 1) as [p1|] eqn:N1; [|reflexivity].
    cbn [Py.bind].
    destruct (py_int p1) as [m|e1] eqn:P1;
      [|apply py_int_raises in P1; subst e1; reflexivity].
    destruct i as [|i]; [rewrite N1 in Hbad; destruct Hbad as [e He]; congruence|].
    cbn [Py.bind].
    destruct (nth_error (split ":" s) 2) as [p2|] eqn:N2; [|reflexivity].
    cbn [Py.bind].
    destruct (py_int p2) as [sec|e2] eqn:P2;
      [|apply py_int_raises in P2; subst e2; reflexivity].
    destruct i as [|i]; [rewrite N2 in Hbad; destruct Hbad as [e He]; congruence|lia].
Qed.

(** C1, as the code has it.  On a clock string of three digit fields the
    parser returns a time of day: the offset from midnight taken modulo 24
    hours.  ["07:05:09"] is 7h5m9s; ["25:10:00"] is wrapped to 1h10m0s;
    ["7:5:9"] is read as 7h5m9s; a value that is not a string, and a string
    with a missing or non-numeric field among the first three, give
    [None]. *)
Theorem robust_time_parser_time_of_day :
  (forall hs ms ss,
      digits hs -> digits ms -> digits ss ->
      let total := 3600 * decimal hs + 60 * decimal ms + decimal ss in
      total < MAXORDINAL * 86400 ->
      robust_time_parser (PyStr (hs ++ ":"%char :: ms ++ ":"%char :: ss))
      = Ret (Some (time_of_seconds (total mod 86400))))
  /\ robust_time_parser (PyStr "07:05:09") = Ret (Some (mk_time 7 5 9))
  /\ robust_time_parser (PyStr "25:10:00") = Ret (Some (mk_time 1 10 0))
  /\ robust_time_parser (PyStr "7:5:9") = Ret (Some (mk_time 7 5 9))
  /\ (forall v, (forall s, v <> PyStr s) -> robust_time_parser v = Ret None)
  /\ (forall s i,
         (i < 3)%nat ->
         match nth_error (split ":" s) i with
         | Some f => exists e, py_int f = Raise e
         | None => True
         end ->
         robust_time_parser (PyStr s) = Ret None).
Proof.
  split; [|split; [|split; [|split; [|split]]]].
  - intros hs ms ss Hh Hm Hs total Hlt.
    rewrite (robust_time_parser_fields hs ms ss Hh Hm Hs). fold total.
    apply Z.ltb_lt in Hlt. now rewrite Hlt.
  - reflexivity.
  - reflexivity.
  - reflexivity.
  - intros v Hv. destruct v as [| |z|s]; try reflexivity.
    now destruct (Hv s).
  - apply robust_time_parser_bad_field.
Qed.

Lemma robust_time_parser_time_of_day_witness :
  robust_time_parser (PyStr "26:30:15") = Ret (Some (mk_time 2 30 15))
  /\ robust_time_parser (PyStr "12:xx:00") = Ret None.
Proof.
  destruct robust_time_parser_time_of_day as (Hclock & _ & _ & _ & _ & Hbad).
  split.
  - apply (Hclock (Py.lit "26") (Py.lit "30") (Py.lit "15")).
    + repeat split; [discriminate | apply Nat.leb_le; reflexivity].
    + repeat split; [discriminate | apply Nat.leb_le; reflexivity].
    + repeat split; [discriminate | apply Nat.leb_le; reflexivity].
    + vm_compute. reflexivity.
  - apply (Hbad (Py.lit "12:xx:00") 1%nat).
    + lia.
    + vm_compute. eauto.
Defined.

(** C1 as stated fails on the code: ["25:10:00"] comes back as 01:10:00,
    which is 4200 seconds from midnight and not 90600, and ["7:5:9"] is
    accepted. *)
Lemma robust_time_parser_wraps_past_midnight :
  robust_time_parser (PyStr "25:10:00") = Ret (Some (mk_time 1 10 0))
  /\ seconds_of_time (mk_time 1 10 0) <> 25 * 3600 + 10 * 60 + 0
  /\ robust_time_parser (PyStr "7:5:9") <> Ret None.
Proof.
  split; [reflexivity|]. split; [vm_compute; discriminate|].
  vm_compute. discriminate.
Qed.

(** The only exception that leaves [robust_time_parser] is the
    [OverflowError] of the date arithmetic. *)
Lemma robust_time_parser_raises v e :
  robust_time_parser v = Raise e -> e = OverflowError.
Proof.
  destruct v as [| |z|s]; try discriminate.
  unfold robust_time_parser.
  destruct (strptime_HMS s) as [dt|e0] eqn:E; [discriminate|].
  apply strptime_HMS_raises in E. subst e0.
  cbn [Py.bind try_except existsb exn_eqb orb]. unfold index.
  destruct (nth_error (split ":" s) 0) as [p0|]; [|discriminate].
  cbn [Py.bind].
  destruct (py_int p0) as [h|e0] eqn:P0;
    [|apply py_int_raises in P0; subst e0; discriminate].
  cbn [Py.bind].
  destruct (nth_error (split ":" s) 1) as [p1|]; [|discriminate].
  cbn [Py.bind].
  destruct (py_int p1) as [m|e1] eqn:P1;
    [|apply py_int_raises in P1; subst e1; discriminate].
  cbn [Py.bind].
  destruct (nth_error (split ":" s) 2) as [p2|]; [|discriminate].
  cbn [Py.bind].
  destruct (py_int p2) as [sec|e2] eqn:P2;
    [|apply py_int_raises in P2; subst e2; discriminate].
  cbn [Py.bind].
  pose proof (datetime_min_plus h m sec) as P. cbv zeta in P.
  destruct (timedelta_new 0 h m sec) as [td|e3]; cbn [Py.bind] in P |- *.
  - rewrite P. destruct (_ && _); [discriminate|].
    cbn. intros H. now inversion H.
  - revert P. destruct (_ && _); intros P; [discriminate|].
    inversion P. cbn. intros H. now inversion H.
Qed.

(** ** [get_service_id_for_date] *)

Lemma digit_char_spec k :
  0 <= k <= 9 -> is_digit (digit_char k) = true /\ digit_val (digit_char k) = k.
Proof.
  intros H.
  assert (C : k = 0 \/ k = 1 \/ k = 2 \/ k = 3 \/ k = 4 \/ k = 5 \/ k = 6
              \/ k = 7 \/ k = 8 \/ k = 9) by lia.
  repeat (destruct C as [->|C]; [split; reflexivity|]).
  subst; split; reflexivity.
Qed.

Lemma digits_of_chars (l : list Z) :
  l <> [] -> (List.length l <= 8)%nat -> Forall (fun k => 0 <= k <= 9) l ->
  digits (map digit_char l).
Proof.
  intros Hne Hlen Hall. repeat split.
  - destruct l; [contradiction | discriminate].
  - apply forallb_forall. intros c Hc. apply in_map_iff in Hc.
    destruct Hc as (k & <- & Hk). rewrite Forall_forall in Hall.
    now apply digit_char_spec, Hall.
  - rewrite length_map. apply Nat.le_trans with (1 := Hlen).
    apply Nat.leb_le. reflexivity.
Qed.

Lemma decimal_of_chars (l : list Z) :
  Forall (fun k => 0 <= k <= 9) l ->
  decimal (map digit_char l) = fold_left (fun acc k => 10 * acc + k) l 0.
Proof.
  unfold decimal. intros H.
  assert (G : forall acc,
             fold_left (fun acc c => 10 * acc + digit_val c) (map digit_char l) acc
             = fold_left (fun acc k => 10 * acc + k) l acc); [|apply G].
  induction H as [|k l Hk Hl IH]; intros acc; [reflexivity|].
  cbn [map fold_left]. rewrite (proj2 (digit_char_spec k Hk)). apply IH.
Qed.

Lemma py_int_of_chars (l : list Z) :
  l <> [] -> (List.length l <= 8)%nat -> Forall (fun k => 0 <= k <= 9) l ->
  py_int (map digit_char l) = Ret (fold_left (fun acc k => 10 * acc + k) l 0).
Proof.
  intros Hne Hlen Hall.
  rewrite py_int_digits by now apply digits_of_chars.
  now rewrite decimal_of_chars.
Qed.

Ltac digit_bounds :=
  repeat (apply Forall_cons; [Z.to_euclidean_division_equations; lia|]);
  apply Forall_nil.

Lemma py_int_pad4 y : 0 <= y <= 9999 -> py_int (pad4 y) = Ret y.
Proof.
  intros H.
  change (pad4 y)
    with (map digit_char [y / 1000; y / 100 mod 10; y / 10 mod 10; y mod 10]).
  rewrite py_int_of_chars; [|discriminate|cbn; lia|digit_bounds].
  cbn [fold_left]. f_equal. Z.to_euclidean_division_equations; lia.
Qed.

Lemma py_int_pad2 n : 0 <= n <= 99 -> py_int (pad2 n) = Ret n.
Proof.
  intros H.
  change (pad2 n) with (map digit_char [n / 10; n mod 10]).
  rewrite py_int_of_chars; [|discriminate|cbn; lia|digit_bounds].
  cbn [fold_left]. f_equal. Z.to_euclidean_division_equations; lia.
Qed.

Lemma py_int_yyyymmdd y m d :
  0 <= y <= 9999 -> 0 <= m <= 99 -> 0 <= d <= 99 ->
  py_int (yyyymmdd y m d) = Ret (10000 * y + 100 * m + d).
Proof.
  intros Hy Hm Hd.
  change (yyyymmdd y m d)
    with (map digit_char [y / 1000; y / 100 mod 10; y / 10 mod 10; y mod 10;
                          m / 10; m mod 10; d / 10; d mod 10]).
  rewrite py_int_of_chars; [|discriminate|cbn; lia|digit_bounds].
  cbn [fold_left]. f_equal. Z.to_euclidean_division_equations; lia.
Qed.

Lemma days_in_month_le y m : days_in_month y m <= 31.
Proof.
  unfold days_in_month.
  repeat match goal with |- context [if ?b then _ else _] => destruct b end; lia.
Qed.

Lemma date_new_valid y m d : valid_date y m d -> date_new y m d = Ret (mk_date y m d).
Proof.
  intros ((Hy1 & Hy2) & (Hm1 & Hm2) & (Hd1 & Hd2)).
  unfold date_new, MINYEAR, MAXYEAR.
  apply Z.leb_le in Hy1, Hy2, Hm1, Hm2, Hd1, Hd2.
  now rewrite Hy1, Hy2, Hm1, Hm2, Hd1, Hd2.
Qed.

Lemma day_map_get_weekday dt :
  exists col, weekday dt = day_index col /\ day_map_get (weekday dt) = Some col.
Proof.
  unfold weekday.
  pose proof (Z.mod_pos_bound (toordinal dt + 6) 7 ltac:(lia)) as B.
  set (w := (toordinal dt + 6) mod 7) in *.
  assert (C : w = 0 \/ w = 1 \/ w = 2 \/ w = 3 \/ w = 4 \/ w = 5 \/ w = 6) by lia.
  destruct C as [->|[->|[->|[->|[->|[->| ->]]]]]];
    [exists Monday|exists Tuesday|exists Wednesday|exists Thursday
    |exists Friday|exists Saturday|exists Sunday]; split; reflexivity.
Qed.

Lemma column_weekday_flag col e : column col e = weekday_flag (day_index col) e.
Proof. destruct col; reflexivity. Qed.

(** C5.  For a calendar date, the entries selected are those whose
    inclusive window holds the date and whose flag for the date's weekday
    (the monday column on a Monday, ..., the sunday column on a Sunday) is
    1; the answer is the [service_id] of the first of them in table order,
    [None] when there is none.  The answer is a function of the date and
    the table alone. *)
Theorem get_service_id_for_date_first_active y m d calendar_df :
  valid_date y m d ->
  get_service_id_for_date (yyyymmdd y m d) calendar_df
  = Ret (hd_error (map service_id (filter (active_on y m d) calendar_df))).
Proof.
  intros Hv. pose proof Hv as ((Hy1 & Hy2) & (Hm1 & Hm2) & (Hd1 & Hd2)).
  pose proof (days_in_month_le y m) as Hdim.
  destruct (day_map_get_weekday (mk_date y m d)) as (col & Hw & Hcol).
  unfold get_service_id_for_date.
  change (slice 0 4 (yyyymmdd y m d)) with (pad4 y).
  change (slice 4 6 (yyyymmdd y m d)) with (pad2 m).
  change (slice 6 8 (yyyymmdd y m d)) with (pad2 d).
  rewrite py_int_pad4, !py_int_pad2 by lia. cbn [Py.bind].
  rewrite (date_new_valid _ _ _ Hv). cbn [Py.bind].
  rewrite Hcol, py_int_yyyymmdd by lia. cbn [Py.bind].
  rewrite (filter_ext _ (active_on y m d)); [reflexivity|].
  intros e. unfold active_on. now rewrite Hw, column_weekday_flag.
Qed.

(** 2024-01-06 was a Saturday: of the three overlapping entries the first
    one with the saturday flag answers. *)
Lemma get_service_id_for_date_first_active_witness :
  get_service_id_for_date (yyyymmdd 2024 1 6) sample_overlapping_calendar
  = Ret (Some (Py.lit "Saturday")).
Proof.
  refine (eq_trans
            (get_service_id_for_date_first_active 2024 1 6
               sample_overlapping_calendar _) _).
  - unfold valid_date. vm_compute. intuition discriminate.
  - reflexivity.
Defined.

(** The calendar of the model agrees with the real one on known days, and
    the first of two overlapping entries wins. *)
Example weekday_known_days :
  weekday (mk_date 2024 1 1) = 0 /\ weekday (mk_date 2024 2 29) = 3
  /\ weekday (mk_date 2000 1 1) = 5 /\ weekday (mk_date 1900 1 1) = 0.
Proof. repeat split; reflexivity. Qed.

Example get_service_id_for_date_overlap :
  get_service_id_for_date "20240106"
    [mk_calendar_entry "Weekday" 1 1 1 1 1 0 0 20240101 20241231;
     mk_calendar_entry "Saturday" 0 0 0 0 0 1 0 20240101 20241231;
     mk_calendar_entry "Weekend" 0 0 0 0 0 1 1 20230101 20251231]
  = Ret (Some (Py.lit "Saturday"))
  /\ get_service_id_for_date "20240107"
       [mk_calendar_entry "Weekday" 1 1 1 1 1 0 0 20240101 20241231]
     = Ret None.
Proof. split; reflexivity. Qed.

(** ** The trip match (step 2b of [main]) *)

Lemma str_eqb_eq a b : str_eqb a b = true <-> a = b.
Proof.
  revert b. induction a as [|x a IH]; intros [|y b]; cbn [str_eqb];
    try (split; [discriminate | discriminate]); [tauto|].
  rewrite andb_true_iff, IH. split.
  - intros [H1 H2]. apply Ascii.eqb_eq in H1. now subst.
  - intros H. inversion H; subst. split; [apply Ascii.eqb_refl | reflexivity].
Qed.

Lemma key_eqb_eq (a b : list str) : key_eqb a b = true <-> a = b.
Proof.
  unfold key_eqb. revert b.
  induction a as [|x a IH]; intros [|y b]; cbn [List.length Nat.eqb List.combine forallb andb fst snd];
    try (split; [discriminate | discriminate]); [tauto|].
  specialize (IH b). rewrite andb_true_iff in IH.
  rewrite !andb_true_iff, str_eqb_eq. split.
  - intros (Hl & Hx & Hr). subst. f_equal. apply IH. tauto.
  - intros H. inversion H; subst. destruct IH as [_ IH].
    specialize (IH eq_refl). tauto.
Qed.

Lemma split_head sep s : exists tl, split sep s = before_sep sep s :: tl.
Proof.
  induction s as [|c r [tl IH]]; [now exists []|].
  cbn [split before_sep]. destruct (Ascii.eqb c sep); [eauto|].
  rewrite IH. eauto.
Qed.

Lemma index_split_0 sep s : index (split sep s) 0 = Ret (before_sep sep s).
Proof. destruct (split_head sep s) as [tl ->]. reflexivity. Qed.

Lemma split1_contains sep s :
  contains sep s = true -> split1 sep s = [before_sep sep s; after_sep sep s].
Proof.
  unfold contains. induction s as [|c r IH]; [discriminate|].
  cbn [existsb split1 before_sep after_sep].
  rewrite (Ascii.eqb_sym sep c).
  destruct (Ascii.eqb c sep); [reflexivity|].
  cbn [orb]. intros H. now rewrite (IH H).
Qed.

Lemma before_sep_absent sep s : contains sep s = false -> before_sep sep s = s.
Proof.
  unfold contains. induction s as [|c r IH]; [reflexivity|].
  cbn [existsb before_sep]. rewrite (Ascii.eqb_sym sep c).
  destruct (Ascii.eqb c sep); [discriminate|].
  cbn [orb]. intros H. now rewrite (IH H).
Qed.

Lemma realtime_start_time_str_token x :
  realtime_start_time_str x = Ret (realtime_token x).
Proof.
  unfold realtime_start_time_str, realtime_token.
  destruct (contains "_" x) eqn:E; [apply index_split_0|].
  now rewrite before_sep_absent.
Qed.

Lemma static_start_time_str_token x :
  static_start_time_str x = Ret (static_token x).
Proof.
  unfold static_start_time_str, static_token.
  destruct (contains "_" x) eqn:E; [|reflexivity].
  rewrite (split1_contains _ _ E). cbn [index_last rev app Py.bind].
  apply index_split_0.
Qed.

Lemma apply_total {A B : Type} (f : A -> res B) (g : A -> B) l :
  (forall a, f a = Ret (g a)) -> apply f l = Ret (map g l).
Proof.
  intros H. induction l as [|a l IH]; [reflexivity|].
  cbn [apply map]. now rewrite H, IH.
Qed.

Lemma combine_map_self {A B : Type} (g : A -> B) l :
  List.combine l (map g l) = map (fun a => (a, g a)) l.
Proof. induction l as [|a l IH]; [reflexivity|]. cbn. now rewrite IH. Qed.

Lemma flat_map_map {A B C : Type} (f : B -> list C) (h : A -> B) l :
  flat_map f (map h l) = flat_map (fun a => f (h a)) l.
Proof. induction l as [|a l IH]; [reflexivity|]. cbn. now rewrite IH. Qed.

Lemma filter_map_swap {A B : Type} (p : B -> bool) (h : A -> B) l :
  filter p (map h l) = map h (filter (fun a => p (h a)) l).
Proof.
  induction l as [|a l IH]; [reflexivity|].
  cbn [map filter]. destruct (p (h a)); cbn [map]; now rewrite IH.
Qed.

Lemma merge_key_same o t :
  key_eqb (left_key (o, realtime_token (rt_trip_id o)))
          (right_key (t, static_token (st_trip_id t)))
  = same_key o t.
Proof.
  unfold key_eqb, left_key, right_key, same_key.
  cbn [List.length Nat.eqb List.combine forallb fst snd andb].
  now rewrite andb_true_r, !andb_assoc.
Qed.

(** The first merge, in closed form. *)
Lemma match_trips_flat_map realtime_df trips_df :
  match_trips realtime_df trips_df
  = Ret (flat_map (matched_rows_of trips_df) realtime_df).
Proof.
  unfold match_trips.
  rewrite (apply_total _ (fun r => realtime_token (rt_trip_id r)))
    by (intros; apply realtime_start_time_str_token).
  rewrite (apply_total _ (fun t => static_token (st_trip_id t)))
    by (intros; apply static_start_time_str_token).
  cbn [Py.bind]. f_equal. unfold merge_inner.
  rewrite !combine_map_self, flat_map_map.
  apply flat_map_ext. intros o. unfold matched_rows_of.
  rewrite filter_map_swap, map_map. cbn [fst snd].
  f_equal. apply filter_ext. intros t. apply merge_key_same.
Qed.

(** C2, as the code has it.  The first merge is an inner join: an
    observation gives one row of [matched_trips_df] for each static trip
    with its key (route, direction, service, start-time token), in table
    order.  With no such trip the observation gives no row; with exactly
    one it gives one row carrying that static trip id; with several it is
    kept once per trip. *)
Theorem match_trips_inner_join realtime_df trips_df :
  match_trips realtime_df trips_df
  = Ret (flat_map (matched_rows_of trips_df) realtime_df)
  /\ (forall o, filter (same_key o) trips_df = [] -> matched_rows_of trips_df o = [])
  /\ (forall o t,
         filter (same_key o) trips_df = [t] ->
         matched_rows_of trips_df o
         = [mk_matched_row o (realtime_token (rt_trip_id o)) (st_trip_id t)
              (static_token (st_trip_id t))])
  /\ (forall o, List.length (matched_rows_of trips_df o)
                = List.length (filter (same_key o) trips_df)).
Proof.
  split; [apply match_trips_flat_map|].
  unfold matched_rows_of. repeat split.
  - intros o ->. reflexivity.
  - intros o t ->. reflexivity.
  - intros o. apply length_map.
Qed.

Lemma match_trips_inner_join_witness :
  matched_rows_of [sample_trip_a] sample_observation
  = [mk_matched_row sample_observation "000600"
       "AFA23GEN-1038-Sunday-00_000600_1..S03R" "000600"]
  /\ matched_rows_of [] sample_observation = [].
Proof.
  destruct (match_trips_inner_join [sample_observation] [sample_trip_a])
    as (_ & _ & Hone & _).
  destruct (match_trips_inner_join [sample_observation] [])
    as (_ & Hzero & _ & _).
  split.
  - apply (Hone sample_observation sample_trip_a). reflexivity.
  - apply (Hzero sample_observation). reflexivity.
Defined.

(** C2 as stated fails on the code: with two static trips on one key the
    observation is not set aside.  It comes out of the merge twice, once
    with each static trip id. *)
Lemma match_trips_keeps_ambiguous :
  filter (same_key sample_observation) [sample_trip_a; sample_trip_b]
  = [sample_trip_a; sample_trip_b]
  /\ match_trips [sample_observation] [sample_trip_a; sample_trip_b]
     = Ret [mk_matched_row sample_observation "000600"
              "AFA23GEN-1038-Sunday-00_000600_1..S03R" "000600";
            mk_matched_row sample_observation "000600"
              "BFA23GEN-1093-Sunday-00_000600_1..S03R" "000600"].
Proof. split; reflexivity. Qed.

(** ** The delay column and the two filters (steps 3 and 4 of [main]) *)

Lemma delay_and_filter_flat_map today merged_df final_df :
  delay_and_filter today merged_df = Ret final_df ->
  final_df = flat_map (kept today) merged_df.
Proof.
  unfold delay_and_filter. intros H. bind_inv H. inversion H; subst final_df. clear H.
  revert v Hv. induction merged_df as [|row l IH]; intros ds Hds.
  - cbn in Hds. inversion Hds. reflexivity.
  - cbn [apply] in Hds. bind_inv Hds. bind_inv Hds. inversion Hds; subst ds.
    cbn [List.combine dropna flat_map fst snd]. unfold kept at 1. rewrite Hv.
    rewrite filter_app. fold (dropna (List.combine l v0)).
    rewrite (IH v0 Hv0).
    destruct v as [d|]; cbn [filter fr_delay_seconds app];
      [destruct (Z.abs d <? 7200)|]; reflexivity.
Qed.

Lemma kept_sound today row r :
  In r (kept today row) ->
  fr_row r = row
  /\ Z.abs (fr_delay_seconds r) < 7200
  /\ calculate_delay today row = Ret (Some (fr_delay_seconds r)).
Proof.
  unfold kept.
  destruct (calculate_delay today row) as [[d|]|e]; try contradiction.
  destruct (Z.abs d <? 7200) eqn:E; [|contradiction].
  intros [<-|[]]. cbn. apply Z.ltb_lt in E. auto.
Qed.

Lemma kept_complete today row d :
  calculate_delay today row = Ret (Some d) -> Z.abs d < 7200 ->
  kept today row = [mk_final_row row d].
Proof.
  intros H Hd. unfold kept. rewrite H. apply Z.ltb_lt in Hd. now rewrite Hd.
Qed.

(** C9.  Every row that lines 180-197 leave in the table to be saved
    carries a number as its delay, the one [calculate_delay] returned for
    that row, of magnitude strictly below 7200.  The table is the frame
    these lines are given with every row dropped whose delay is [None] or
    has magnitude 7200 or more, in the same order; every other row is kept
    and nothing is clipped. *)
Theorem delay_and_filter_rows today merged_df final_df :
  delay_and_filter today merged_df = Ret final_df ->
  final_df = flat_map (kept today) merged_df
  /\ Forall (fun r =>
               Z.abs (fr_delay_seconds r) < 7200
               /\ calculate_delay today (fr_row r) = Ret (Some (fr_delay_seconds r))
               /\ In (fr_row r) merged_df)
            final_df
  /\ (forall row d,
         In row merged_df ->
         calculate_delay today row = Ret (Some d) -> Z.abs d < 7200 ->
         In (mk_final_row row d) final_df).
Proof.
  intros H. apply delay_and_filter_flat_map in H. subst final_df.
  split; [reflexivity|]. split.
  - apply Forall_forall. intros r Hr. apply in_flat_map in Hr.
    destruct Hr as (row & Hin & Hr). apply kept_sound in Hr.
    destruct Hr as (<- & Hlt & Hd). auto.
  - intros row d Hin Hd Hlt. apply in_flat_map. exists row.
    split; [exact Hin|]. rewrite (kept_complete _ _ _ Hd Hlt). now left.
Qed.

(** Five rows: on time plus 330 seconds, an unreadable schedule cell, two
    and a half hours late, two hours early, and twenty seconds late across
    midnight.  The first and the last stay, with their delays. *)
Lemma delay_and_filter_rows_witness :
  Ret [mk_final_row (sample_row (PyStr "08:00:00") (PyStr "08:05:30")) 330;
       mk_final_row (sample_row (PyStr "23:59:50") (PyStr "00:00:10")) 20]
  = delay_and_filter 738000
      [sample_row (PyStr "08:00:00") (PyStr "08:05:30");
       sample_row PyNaN (PyStr "08:05:30");
       sample_row (PyStr "08:00:00") (PyStr "10:30:00");
       sample_row (PyStr "08:00:00") (PyStr "06:00:00");
       sample_row (PyStr "23:59:50") (PyStr "00:00:10")]
  /\ Forall (fun r =>
               Z.abs (fr_delay_seconds r) < 7200
               /\ calculate_delay 738000 (fr_row r) = Ret (Some (fr_delay_seconds r))
               /\ In (fr_row r)
                    [sample_row (PyStr "08:00:00") (PyStr "08:05:30");
                     sample_row PyNaN (PyStr "08:05:30");
                     sample_row (PyStr "08:00:00") (PyStr "10:30:00");
                     sample_row (PyStr "08:00:00") (PyStr "06:00:00");
                     sample_row (PyStr "23:59:50") (PyStr "00:00:10")])
       [mk_final_row (sample_row (PyStr "08:00:00") (PyStr "08:05:30")) 330;
        mk_final_row (sample_row (PyStr "23:59:50") (PyStr "00:00:10")) 20].
Proof.
  split; [reflexivity|].
  apply (delay_and_filter_rows 738000
           [sample_row (PyStr "08:00:00") (PyStr "08:05:30");
            sample_row PyNaN (PyStr "08:05:30");
            sample_row (PyStr "08:00:00") (PyStr "10:30:00");
            sample_row (PyStr "08:00:00") (PyStr "06:00:00");
            sample_row (PyStr "23:59:50") (PyStr "00:00:10")]).
  reflexivity.
Defined.

(** A row whose cells do not both parse and a row two and a half hours
    late are both absent from the saved table. *)
Example delay_and_filter_drops :
  delay_and_filter 738000
    [sample_row (PyStr "08:00:00") (PyStr "08:05:30");
     sample_row PyNaN (PyStr "08:05:30");
     sample_row (PyStr "08:00:00") (PyStr "10:30:00");
     sample_row (PyStr "08:00:00") (PyStr "06:00:00");
     sample_row (PyStr "23:59:50") (PyStr "00:00:10")]
  = Ret [mk_final_row (sample_row (PyStr "08:00:00") (PyStr "08:05:30")) 330;
         mk_final_row (sample_row (PyStr "23:59:50") (PyStr "00:00:10")) 20].
Proof. reflexivity. Qed.

(** ** The two tables (app/App.py) *)

Section Store.

Import App.

Variable stops_df : str -> option str.
Variable local_clock : Z -> str.

Local Abbreviation data_tuple := (App.data_tuple stops_df local_clock).
Local Abbreviation store_entity := (App.store_entity stops_df local_clock).
Local Abbreviation store_response := (App.store_response stops_df local_clock).
Local Abbreviation process_and_store_data := (App.process_and_store_data stops_df local_clock).
Local Abbreviation decoded := (App.decoded stops_df local_clock).
Local Abbreviation run_cycles := (App.run_cycles stops_df local_clock).
Local Abbreviation entity_tuples := (entity_tuples stops_df local_clock).
Local Abbreviation response_tuples := (response_tuples stops_df local_clock).

Lemma decoded_flat_map responses : decoded responses = flat_map response_tuples responses.
Proof. reflexivity. Qed.

(** Both tables see the decoded tuples one by one, in order. *)
Lemma fold_store_tuple os s :
  fold_left store_tuple os s
  = mk_store (fold_left insert os (realtime s))
             (fold_left insert_or_ignore os (historical s)).
Proof.
  revert s. induction os as [|o os IH]; intros s; [now destruct s|].
  cbn [fold_left]. now rewrite IH.
Qed.

Lemma store_entity_tuples s e :
  store_entity s e = fold_left store_tuple (entity_tuples e) s.
Proof.
  destruct e as [tu|]; [|reflexivity].
  unfold App.store_entity, entity_tuples.
  generalize (tu_stop_time_update tu) as us. intros us. revert s.
  induction us as [|u us IH]; intros s; [reflexivity|].
  cbn [fold_left map]. apply IH.
Qed.

Lemma store_response_tuples s r :
  store_response s r = fold_left store_tuple (response_tuples r) s.
Proof.
  destruct r as [| |entities]; try reflexivity.
  unfold App.store_response, response_tuples. revert s.
  induction entities as [|e es IH]; intros s; [reflexivity|].
  cbn [fold_left flat_map]. rewrite fold_left_app, <- store_entity_tuples. apply IH.
Qed.

Lemma fold_store_response responses s :
  fold_left store_response responses s = fold_left store_tuple (decoded responses) s.
Proof.
  rewrite decoded_flat_map. revert s.
  induction responses as [|r rs IH]; intros s; [reflexivity|].
  cbn [fold_left flat_map]. rewrite fold_left_app, <- store_response_tuples. apply IH.
Qed.

(** One cycle in closed form. *)
Lemma process_and_store_data_tables s responses :
  process_and_store_data s responses
  = mk_store (fold_left insert (decoded responses) (delete_all (realtime s)))
             (fold_left insert_or_ignore (decoded responses) (historical s)).
Proof.
  unfold App.process_and_store_data. now rewrite fold_store_response, fold_store_tuple.
Qed.

(** *** The snapshot table *)

Lemma fold_insert_rows os t :
  exists news,
    rows (fold_left insert os t) = rows t ++ news
    /\ map snd news = os
    /\ Forall (fun r => seq t < fst r) news
    /\ seq t <= seq (fold_left insert os t).
Proof.
  revert t. induction os as [|o os IH]; intros t.
  - exists []. cbn. rewrite app_nil_r. repeat split; [constructor | lia].
  - cbn [fold_left]. destruct (IH (insert t o)) as (news & Hr & Hm & Hf & Hs).
    exists ((seq t + 1, o) :: news). cbn [insert rows seq] in *.
    rewrite Hr, <- app_assoc. repeat split.
    + cbn. now rewrite Hm.
    + constructor; [cbn; lia|]. eapply Forall_impl; [|exact Hf].
      cbn. intros; lia.
    + lia.
Qed.

(** C7.  After a cycle the snapshot table holds the observations decoded
    in that cycle, in feed order, and nothing else: whatever the table held
    before is gone, and every row carries an [id] generated during the
    cycle. *)
Theorem snapshot_is_current_cycle s responses :
  map snd (rows (realtime (process_and_store_data s responses))) = decoded responses
  /\ Forall (fun r => seq (realtime s) < fst r)
            (rows (realtime (process_and_store_data s responses))).
Proof.
  rewrite process_and_store_data_tables. cbn [realtime].
  destruct (fold_insert_rows (decoded responses) (delete_all (realtime s)))
    as (news & Hr & Hm & Hf & _).
  rewrite Hr. cbn [delete_all rows seq app] in *. auto.
Qed.

(** *** The historical table *)

Lemma existsb_key t o :
  existsb (fun r => key_eqb (natural_key (snd r)) (natural_key o)) (rows t) = true
  <-> In (natural_key o) (keys t).
Proof.
  unfold keys. rewrite existsb_exists, in_map_iff. split.
  - intros (r & Hr & He). apply key_eqb_eq in He. eauto.
  - intros (r & He & Hr). exists r. split; [exact Hr|]. now apply key_eqb_eq.
Qed.

Lemma insert_or_ignore_present t o :
  In (natural_key o) (keys t) ->
  insert_or_ignore t o = mk_table (rows t) (seq t + 1).
Proof.
  intros H. unfold insert_or_ignore. apply existsb_key in H. now rewrite H.
Qed.

Lemma rows_insert_or_ignore_present t o :
  In (natural_key o) (keys t) -> rows (insert_or_ignore t o) = rows t.
Proof. intros H. now rewrite insert_or_ignore_present. Qed.

Lemma insert_or_ignore_absent t o :
  ~ In (natural_key o) (keys t) -> insert_or_ignore t o = insert t o.
Proof.
  intros H. unfold insert_or_ignore.
  destruct (existsb _ _) eqn:E; [|reflexivity].
  apply existsb_key in E. contradiction.
Qed.

Lemma keys_insert t o : keys (insert t o) = keys t ++ [natural_key o].
Proof. unfold keys, insert. cbn [rows]. now rewrite map_app. Qed.

Lemma insert_or_ignore_has_key t o : In (natural_key o) (keys (insert_or_ignore t o)).
Proof.
  destruct (in_dec (list_eq_dec (list_eq_dec ascii_dec)) (natural_key o) (keys t)) as [H|H].
  - unfold keys. now rewrite rows_insert_or_ignore_present.
  - rewrite insert_or_ignore_absent by exact H. rewrite keys_insert.
    apply in_or_app. right. now left.
Qed.











End Store.


(** An ignored insert uses up an id: the same observation offered three
    times is stored once, with id 1, and the next new row gets id 4. *)
Example ignored_inserts_use_ids :
  map fst
    (App.rows
       (App.insert_or_ignore
          (App.insert_or_ignore
             (App.insert_or_ignore
                (App.insert_or_ignore App.empty_table sample_stored_observation)
                sample_stored_observation)
             sample_stored_observation)
          (App.mk_observation "1" "000600_1..S03R" 1 "Southbound" "00:06:00"
             "20240107" "104S" "00:06:00" "00:06:00")))
  = [1; 4].
Proof. reflexivity. Qed.

(** The same feed twice: the snapshot holds the two rows of the second
    cycle (ids 3 and 4), the historical table the two rows of the first. *)
Example two_cycles_same_feed :
  let s := App.run_cycles sample_stops sample_clock
             (App.init_databases (App.mk_databases None None))
             [[sample_feed]; [sample_feed]] in
  map fst (App.rows (App.realtime s)) = [3; 4]
  /\ map fst (App.rows (App.historical s)) = [1; 2]
  /\ map (fun r => App.stop_name (snd r)) (App.rows (App.historical s))
     = [Py.lit "Van Cortlandt Park-242 St"; Py.lit "103S"].
Proof. repeat split; reflexivity. Qed.

(** * Further properties of the code *)

(** ** [robust_time_parser]: what it returns and where it raises *)

Lemma digits_pad2 n : 0 <= n <= 99 -> digits (pad2 n).
Proof.
  intros H. change (pad2 n) with (map digit_char [n / 10; n mod 10]).
  apply digits_of_chars; [discriminate | cbn; lia | digit_bounds].
Qed.

Lemma decimal_pad2 n : 0 <= n <= 99 -> decimal (pad2 n) = n.
Proof.
  intros H. pose proof (py_int_pad2 n H) as P.
  rewrite (py_int_digits _ (digits_pad2 n H)) in P. injection P. auto.
Qed.

(** X1.  No exception other than [OverflowError] leaves the parser,
    whatever value it is given. *)
Theorem robust_time_parser_only_overflow v e :
  robust_time_parser v = Raise e -> e = OverflowError.
Proof. apply robust_time_parser_raises. Qed.

Lemma robust_time_parser_only_overflow_witness :
  OverflowError = OverflowError.
Proof.
  apply (robust_time_parser_only_overflow (PyStr "-1:00:00") OverflowError).
  reflexivity.
Defined.

(** X2.  A time the parser returns is a time of day: its hour is below 24,
    its minute and second below 60. *)
Theorem robust_time_parser_returns_time_of_day v t :
  robust_time_parser v = Ret (Some t) ->
  0 <= hour t < 24 /\ 0 <= minute t < 60 /\ 0 <= second t < 60.
Proof. apply robust_time_parser_valid. Qed.

Lemma robust_time_parser_returns_time_of_day_witness :
  0 <= 2 < 24 /\ 0 <= 30 < 60 /\ 0 <= 15 < 60.
Proof.
  apply (robust_time_parser_returns_time_of_day (PyStr "26:30:15") (mk_time 2 30 15)).
  reflexivity.
Defined.

(** X3.  On three digit fields the parser raises exactly when the fields
    add up to 3652059 days or more (the span from 0001-01-01 to the end of
    9999); below that it returns the total modulo a day. *)
Theorem robust_time_parser_overflow_threshold hs ms ss :
  digits hs -> digits ms -> digits ss ->
  robust_time_parser (PyStr (hs ++ ":"%char :: ms ++ ":"%char :: ss))
  = if 3600 * decimal hs + 60 * decimal ms + decimal ss <? 3652059 * 86400
    then Ret (Some (time_of_seconds
                      ((3600 * decimal hs + 60 * decimal ms + decimal ss) mod 86400)))
    else Raise OverflowError.
Proof. intros Hh Hm Hs. apply (robust_time_parser_fields hs ms ss Hh Hm Hs). Qed.

Lemma robust_time_parser_overflow_threshold_witness :
  robust_time_parser (PyStr "87649415:59:60") = Raise OverflowError.
Proof.
  apply (robust_time_parser_overflow_threshold
           (Py.lit "87649415") (Py.lit "59") (Py.lit "60"));
    (repeat split; [discriminate | apply Nat.leb_le; reflexivity]).
Defined.

(** X4.  A time of day written [HH:MM:SS] is read back as itself. *)
Theorem robust_time_parser_reads_clock_string t :
  valid_time t ->
  robust_time_parser (PyStr (clock_string (hour t) (minute t) (second t)))
  = Ret (Some t).
Proof.
  intros Hv. pose proof Hv as (Hh & Hm & Hs).
  unfold clock_string.
  rewrite (robust_time_parser_fields _ _ _ (digits_pad2 (hour t) ltac:(lia))
             (digits_pad2 (minute t) ltac:(lia)) (digits_pad2 (second t) ltac:(lia))).
  rewrite !decimal_pad2 by lia. cbv zeta.
  pose proof (seconds_of_valid_time t Hv) as B. unfold seconds_of_time in B.
  replace (3600 * hour t + 60 * minute t + second t <? MAXORDINAL * 86400) with true
    by (symmetry; apply Z.ltb_lt; unfold MAXORDINAL; lia).
  rewrite Z.mod_small by lia.
  change (3600 * hour t + 60 * minute t + second t) with (seconds_of_time t).
  now rewrite time_of_seconds_of_time.
Qed.

Lemma robust_time_parser_reads_clock_string_witness :
  robust_time_parser (PyStr (clock_string 23 59 59)) = Ret (Some (mk_time 23 59 59)).
Proof.
  apply (robust_time_parser_reads_clock_string (mk_time 23 59 59)).
  unfold valid_time. cbn. lia.
Defined.

Lemma split_clock_more hs ms ss rest :
  forallb is_digit hs = true -> forallb is_digit ms = true ->
  forallb is_digit ss = true ->
  split ":" (hs ++ ":"%char :: ms ++ ":"%char :: ss ++ ":"%char :: rest)
  = hs :: ms :: ss :: split ":" rest.
Proof.
  intros H1 H2 H3.
  rewrite split_app_sep by now apply digits_no_colon.
  rewrite split_app_sep by now apply digits_no_colon.
  rewrite split_app_sep by now apply digits_no_colon.
  reflexivity.
Qed.

(** X5.  Only the first three fields count: text after a third colon is
    never looked at, so the string parses as if it ended there. *)
Theorem robust_time_parser_ignores_fourth_field hs ms ss rest :
  digits hs -> digits ms -> digits ss ->
  robust_time_parser (PyStr (hs ++ ":"%char :: ms ++ ":"%char :: ss ++ ":"%char :: rest))
  = robust_time_parser (PyStr (hs ++ ":"%char :: ms ++ ":"%char :: ss)).
Proof.
  intros Hh Hm Hs.
  rewrite (robust_time_parser_fields hs ms ss Hh Hm Hs). cbv zeta.
  assert (Hsplit : split ":" (hs ++ ":"%char :: ms ++ ":"%char :: ss ++ ":"%char :: rest)
                   = hs :: ms :: ss :: split ":" rest)
    by (apply split_clock_more; [apply Hh | apply Hm | apply Hs]).
  destruct (strptime_HMS (hs ++ ":"%char :: ms ++ ":"%char :: ss ++ ":"%char :: rest))
    as [dt|e] eqn:E.
  - exfalso. apply strptime_HMS_ret in E.
    destruct E as (h & m & sec & Hsp & _). rewrite Hsplit in Hsp.
    inversion Hsp as [[E1 E2 E3 E4]].
    destruct (split_head ":" rest) as [tl Htl]. rewrite Htl in E4. discriminate.
  - apply strptime_HMS_raises in E as E'. subst e.
    rewrite (fallback_three_fields _ hs ms ss (split ":" rest) _ _ _ Hsplit
               (py_int_digits _ Hh) (py_int_digits _ Hm) (py_int_digits _ Hs) E).
    cbv zeta.
    pose proof (decimal_nonneg hs (proj1 (proj2 Hh))).
    pose proof (decimal_nonneg ms (proj1 (proj2 Hm))).
    pose proof (decimal_nonneg ss (proj1 (proj2 Hs))).
    replace (0 <=? 3600 * decimal hs + 60 * decimal ms + decimal ss) with true
      by (symmetry; apply Z.leb_le; lia).
    reflexivity.
Qed.

Lemma robust_time_parser_ignores_fourth_field_witness :
  robust_time_parser (PyStr "25:10:00:not read")
  = robust_time_parser (PyStr "25:10:00").
Proof.
  apply (robust_time_parser_ignores_fourth_field
           (Py.lit "25") (Py.lit "10") (Py.lit "00") (Py.lit "not read"));
    (repeat split; [discriminate | apply Nat.leb_le; reflexivity]).
Defined.

(** ** [calculate_delay]: the date, the [None] test and the one-sided correction *)

Lemma calculate_delay_before_last_day today row ts ta :
  1 <= today < MAXORDINAL ->
  robust_time_parser (scheduled_arrival row) = Ret (Some ts) ->
  robust_time_parser (actual_arrival row) = Ret (Some ta) ->
  calculate_delay today row = Ret (Some (delay_of_times ts ta)).
Proof.
  intros Ht Hs Ha. rewrite (calculate_delay_parsed today row ts ta Hs Ha).
  replace ((1 <=? today + 1) && (today + 1 <=? MAXORDINAL)) with true
    by (symmetry; apply andb_true_iff; split; apply Z.leb_le; lia).
  cbn [negb]. now rewrite andb_false_r.
Qed.

(** X6.  When neither cell makes the parser raise, [calculate_delay]
    returns [None] exactly when one of the two cells failed to parse. *)
Theorem calculate_delay_none_exactly_on_parse_failure today row s a :
  robust_time_parser (scheduled_arrival row) = Ret s ->
  robust_time_parser (actual_arrival row) = Ret a ->
  (calculate_delay today row = Ret None <-> s = None \/ a = None).
Proof. apply calculate_delay_none_iff. Qed.

Lemma calculate_delay_none_exactly_on_parse_failure_witness :
  calculate_delay 738886 (sample_row PyNaN (PyStr "08:05:30")) = Ret None
  <-> @None time = None \/ Some (mk_time 8 5 30) = @None time.
Proof.
  apply (calculate_delay_none_exactly_on_parse_failure 738886
           (sample_row PyNaN (PyStr "08:05:30")) None (Some (mk_time 8 5 30)));
    reflexivity.
Defined.

(** X7.  The date the script runs on does not matter: on any two days
    before 9999-12-31 [calculate_delay] gives the same result, value,
    [None] or exception, for the same row. *)
Theorem calculate_delay_same_on_any_day today today' row :
  1 <= today < MAXORDINAL -> 1 <= today' < MAXORDINAL ->
  calculate_delay today row = calculate_delay today' row.
Proof.
  intros Ht Ht'.
  destruct (robust_time_parser (scheduled_arrival row)) as [[ts|]|e] eqn:Hs;
    [destruct (robust_time_parser (actual_arrival row)) as [[ta|]|e] eqn:Ha| |].
  - now rewrite !(calculate_delay_before_last_day _ row ts ta) by assumption.
  - unfold calculate_delay. now rewrite Hs, Ha.
  - unfold calculate_delay. now rewrite Hs, Ha.
  - unfold calculate_delay. rewrite Hs. cbn [Py.bind].
    now destruct (robust_time_parser (actual_arrival row)) as [[ta|]|e].
  - unfold calculate_delay. now rewrite Hs.
Qed.

Lemma calculate_delay_same_on_any_day_witness :
  calculate_delay 1 (sample_row (PyStr "23:58:00") (PyStr "00:02:00"))
  = calculate_delay 738886 (sample_row (PyStr "23:58:00") (PyStr "00:02:00")).
Proof.
  apply (calculate_delay_same_on_any_day 1 738886); unfold MAXORDINAL; lia.
Defined.

(** X8.  The correction is one-sided.  Exchanging the scheduled and the
    observed cell negates the delay when the two clock times are at most
    twelve hours apart; when they are further apart the two delays add up
    to a whole day (one of them was corrected, the other is a lateness of
    more than twelve hours that is left as it is). *)
Theorem calculate_delay_swap today row ts ta :
  1 <= today < MAXORDINAL ->
  robust_time_parser (scheduled_arrival row) = Ret (Some ts) ->
  robust_time_parser (actual_arrival row) = Ret (Some ta) ->
  exists d d',
    calculate_delay today row = Ret (Some d)
    /\ calculate_delay today (swap_arrivals row) = Ret (Some d')
    /\ d + d' = if Z.abs (seconds_of_time ta - seconds_of_time ts) <=? 12 * 3600
                then 0 else 24 * 3600.
Proof.
  intros Ht Hs Ha.
  exists (delay_of_times ts ta), (delay_of_times ta ts).
  split; [now apply calculate_delay_before_last_day|].
  split; [now apply calculate_delay_before_last_day|].
  unfold delay_of_times. cbv zeta.
  destruct (12 * 3600 <? seconds_of_time ts - seconds_of_time ta) eqn:E1;
    destruct (12 * 3600 <? seconds_of_time ta - seconds_of_time ts) eqn:E2;
    destruct (Z.abs (seconds_of_time ta - seconds_of_time ts) <=? 12 * 3600) eqn:E3;
    try apply Z.ltb_lt in E1; try apply Z.ltb_ge in E1;
    try apply Z.ltb_lt in E2; try apply Z.ltb_ge in E2;
    try apply Z.leb_le in E3; try apply Z.leb_gt in E3; lia.
Qed.

Lemma calculate_delay_swap_witness :
  exists d d',
    calculate_delay 738886 (sample_row (PyStr "00:02:00") (PyStr "23:58:00"))
    = Ret (Some d)
    /\ calculate_delay 738886
         (swap_arrivals (sample_row (PyStr "00:02:00") (PyStr "23:58:00")))
       = Ret (Some d')
    /\ d + d' = if Z.abs (seconds_of_time (mk_time 23 58 0)
                          - seconds_of_time (mk_time 0 2 0)) <=? 12 * 3600
                then 0 else 24 * 3600.
Proof.
  apply (calculate_delay_swap 738886
           (sample_row (PyStr "00:02:00") (PyStr "23:58:00"))
           (mk_time 0 2 0) (mk_time 23 58 0)).
  - unfold MAXORDINAL. lia.
  - reflexivity.
  - reflexivity.
Defined.

(** Scheduled 00:02:00 with observed 23:58:00 is reported as 86160 seconds
    late, not as 240 seconds early. *)
Example calculate_delay_early_across_midnight :
  calculate_delay 738886 (sample_row (PyStr "00:02:00") (PyStr "23:58:00"))
  = Ret (Some 86160).
Proof. reflexivity. Qed.

(** ** [get_service_id_for_date]: bad dates and growing calendars *)

Lemma date_new_invalid y m d :
  ~ valid_date y m d -> date_new y m d = Raise ValueError.
Proof.
  intros H. unfold date_new, MINYEAR, MAXYEAR.
  destruct ((1 <=? y) && (y <=? 9999)) eqn:E1; [|reflexivity].
  destruct ((1 <=? m) && (m <=? 12)) eqn:E2; [|reflexivity].
  destruct ((1 <=? d) && (d <=? days_in_month y m)) eqn:E3; [|reflexivity].
  exfalso. apply H. unfold valid_date.
  apply andb_true_iff in E1, E2, E3.
  destruct E1 as [A1 A2], E2 as [B1 B2], E3 as [C1 C2].
  apply Z.leb_le in A1, A2, B1, B2, C1, C2. lia.
Qed.

Lemma date_new_raises y m d e : date_new y m d = Raise e -> e = ValueError.
Proof.
  unfold date_new.
  repeat match goal with
         | |- context [if ?b then _ else _] => destruct b
         end; congruence.
Qed.

(** X9.  Eight digits that do not name a calendar date (a month 13, a
    30th of February, a year 0000) make the lookup raise [ValueError]; it
    does not answer [None]. *)
Theorem get_service_id_for_date_rejects_invalid_date y m d calendar_df :
  0 <= y <= 9999 -> 0 <= m <= 99 -> 0 <= d <= 99 ->
  ~ valid_date y m d ->
  get_service_id_for_date (yyyymmdd y m d) calendar_df = Raise ValueError.
Proof.
  intros Hy Hm Hd Hinv. unfold get_service_id_for_date.
  change (slice 0 4 (yyyymmdd y m d)) with (pad4 y).
  change (slice 4 6 (yyyymmdd y m d)) with (pad2 m).
  change (slice 6 8 (yyyymmdd y m d)) with (pad2 d).
  rewrite py_int_pad4, !py_int_pad2 by lia. cbn [Py.bind].
  now rewrite (date_new_invalid _ _ _ Hinv).
Qed.

Lemma get_service_id_for_date_rejects_invalid_date_witness :
  get_service_id_for_date (yyyymmdd 2023 2 29)
    [mk_calendar_entry "Weekday" 1 1 1 1 1 0 0 20230101 20231231]
  = Raise ValueError.
Proof.
  apply (get_service_id_for_date_rejects_invalid_date 2023 2 29); try lia.
  unfold valid_date. vm_compute. intros (_ & _ & _ & H). now apply H.
Defined.

Lemma get_service_id_for_date_raises date_str calendar_df e :
  get_service_id_for_date date_str calendar_df = Raise e -> e = ValueError.
Proof.
  unfold get_service_id_for_date.
  destruct (py_int (slice 0 4 date_str)) as [y|e0] eqn:E0;
    [|cbn; intros H; inversion H; subst; eapply py_int_raises; eauto].
  destruct (py_int (slice 4 6 date_str)) as [m|e1] eqn:E1;
    [|cbn; intros H; inversion H; subst; eapply py_int_raises; eauto].
  destruct (py_int (slice 6 8 date_str)) as [d|e2] eqn:E2;
    [|cbn; intros H; inversion H; subst; eapply py_int_raises; eauto].
  cbn [Py.bind].
  destruct (date_new y m d) as [dt|e3] eqn:E3;
    [|cbn; intros H; inversion H; subst; eapply date_new_raises; eauto].
  cbn [Py.bind]. destruct (day_map_get (weekday dt)); [|discriminate].
  destruct (py_int date_str) as [n|e4] eqn:E4;
    [discriminate|cbn; intros H; inversion H; subst; eapply py_int_raises; eauto].
Qed.

(** X10.  The lookup raises nothing but [ValueError]. *)
Theorem get_service_id_for_date_only_value_error date_str calendar_df e :
  get_service_id_for_date date_str calendar_df = Raise e -> e = ValueError.
Proof. apply get_service_id_for_date_raises. Qed.

Lemma get_service_id_for_date_only_value_error_witness :
  ValueError = ValueError.
Proof.
  apply (get_service_id_for_date_only_value_error (Py.lit "2024-01-06") [] ValueError).
  reflexivity.
Defined.

(** X11.  A date text of six characters or fewer always raises
    [ValueError]: the day slice [date_str[6:8]] is empty. *)
Theorem get_service_id_for_date_short_text date_str calendar_df :
  (List.length date_str <= 6)%nat ->
  get_service_id_for_date date_str calendar_df = Raise ValueError.
Proof.
  intros Hlen. unfold get_service_id_for_date.
  assert (Hday : slice 6 8 date_str = []).
  { unfold slice. rewrite skipn_all2 by exact Hlen. reflexivity. }
  rewrite Hday.
  destruct (py_int (slice 0 4 date_str)) as [y|e0] eqn:E0;
    [|apply py_int_raises in E0; now subst].
  destruct (py_int (slice 4 6 date_str)) as [m|e1] eqn:E1;
    [|apply py_int_raises in E1; now subst].
  reflexivity.
Qed.

Lemma get_service_id_for_date_short_text_witness :
  get_service_id_for_date (Py.lit "202401")
    [mk_calendar_entry "Weekday" 1 1 1 1 1 0 0 20230101 20231231]
  = Raise ValueError.
Proof.
  apply (get_service_id_for_date_short_text (Py.lit "202401")).
  cbn. lia.
Defined.

(** X12.  First match wins, also across tables: on a calendar made of two
    parts the lookup answers from the first part whenever that part has an
    active entry, and from the second part otherwise.  Rows added at the
    end never change an answer already found. *)
Theorem get_service_id_for_date_app date_str calendar_df more :
  get_service_id_for_date date_str (calendar_df ++ more)
  = match get_service_id_for_date date_str calendar_df with
    | Ret None => get_service_id_for_date date_str more
    | found => found
    end.
Proof.
  unfold get_service_id_for_date.
  destruct (py_int (slice 0 4 date_str)) as [y|e0]; [|reflexivity].
  destruct (py_int (slice 4 6 date_str)) as [m|e1]; [|reflexivity].
  destruct (py_int (slice 6 8 date_str)) as [d|e2]; [|reflexivity].
  cbn [Py.bind].
  destruct (date_new y m d) as [dt|e3]; [|reflexivity].
  cbn [Py.bind]. destruct (day_map_get (weekday dt)) as [col|]; [|reflexivity].
  destruct (py_int date_str) as [n|e4]; [|reflexivity].
  cbn [Py.bind]. rewrite filter_app, map_app.
  destruct (map service_id (filter _ calendar_df)); reflexivity.
Qed.

(** ** The start-time tokens *)

Lemma before_sep_app sep tok rest :
  contains sep tok = false -> before_sep sep (tok ++ sep :: rest) = tok.
Proof.
  unfold contains. induction tok as [|c r IH]; intros H.
  - cbn. now rewrite Ascii.eqb_refl.
  - cbn [existsb] in H. apply orb_false_iff in H. destruct H as [Hc Hr].
    cbn [app before_sep]. rewrite Ascii.eqb_sym, Hc. now rewrite (IH Hr).
Qed.

Lemma after_sep_app sep pre rest :
  contains sep pre = false -> after_sep sep (pre ++ sep :: rest) = rest.
Proof.
  unfold contains. induction pre as [|c r IH]; intros H.
  - cbn. now rewrite Ascii.eqb_refl.
  - cbn [existsb] in H. apply orb_false_iff in H. destruct H as [Hc Hr].
    cbn [app after_sep]. rewrite Ascii.eqb_sym, Hc. now rewrite (IH Hr).
Qed.

Lemma contains_app_sep sep pre rest : contains sep (pre ++ sep :: rest) = true.
Proof.
  unfold contains. rewrite existsb_app. cbn [existsb].
  now rewrite Ascii.eqb_refl, orb_true_r.
Qed.

(** X13.  The token of a real-time id is its text before the first
    underscore; the token of a static id is the text between its first and
    second underscore, or after the first one when there is no second.  An
    id without underscore is its own token.  So [T_rest] and [pre_T_rest']
    get the same token [T]. *)
Theorem start_time_tokens pre tok rest :
  contains "_" pre = false -> contains "_" tok = false ->
  realtime_start_time_str (tok ++ "_"%char :: rest) = Ret tok
  /\ static_start_time_str (pre ++ "_"%char :: tok ++ "_"%char :: rest) = Ret tok
  /\ static_start_time_str (pre ++ "_"%char :: tok) = Ret tok
  /\ realtime_start_time_str tok = Ret tok
  /\ static_start_time_str tok = Ret tok.
Proof.
  intros Hpre Htok.
  rewrite !realtime_start_time_str_token, !static_start_time_str_token.
  unfold realtime_token, static_token.
  rewrite !contains_app_sep, Htok, !after_sep_app by exact Hpre.
  rewrite !before_sep_app by exact Htok.
  now rewrite (before_sep_absent _ _ Htok).
Qed.

Lemma start_time_tokens_witness :
  realtime_start_time_str (Py.lit "000600" ++ "_"%char :: Py.lit "1..S03R")
  = Ret (Py.lit "000600")
  /\ static_start_time_str
       (Py.lit "AFA23GEN-1038-Sunday-00" ++ "_"%char :: Py.lit "000600"
          ++ "_"%char :: Py.lit "1..S03R")
     = Ret (Py.lit "000600").
Proof.
  destruct (start_time_tokens (Py.lit "AFA23GEN-1038-Sunday-00") (Py.lit "000600")
              (Py.lit "1..S03R") eq_refl eq_refl) as (H1 & H2 & _).
  split; [exact H1 | exact H2].
Defined.

(** ** [main]: what makes a run fail *)

Lemma apply_raises_only {A B : Type} (f : A -> res B) l e e0 :
  (forall a e', f a = Raise e' -> e' = e0) -> apply f l = Raise e -> e = e0.
Proof.
  intros Hf. induction l as [|a l IH]; [discriminate|].
  cbn [apply]. destruct (f a) as [b|e1] eqn:E; cbn [Py.bind].
  - destruct (apply f l) as [bs|e2]; cbn [Py.bind]; [discriminate|].
    intros H. inversion H; subst. now apply IH.
  - intros H. inversion H; subst. eapply Hf; eauto.
Qed.

Lemma apply_raises_in {A B : Type} (f : A -> res B) l a :
  In a l -> (exists e, f a = Raise e) -> exists e, apply f l = Raise e.
Proof.
  intros Hin [e He]. induction l as [|x l IH]; [contradiction|].
  cbn [apply]. destruct Hin as [->|Hin].
  - rewrite He. eexists. reflexivity.
  - destruct (f x); cbn [Py.bind]; [|eexists; reflexivity].
    destruct (IH Hin) as [e' ->]. eexists. reflexivity.
Qed.





(** One matched observation is enough for the [KeyError]. *)
Example main_from_step_2b_sample :
  main_from_step_2b 738886 [sample_observation] [sample_trip_a] sample_stop_times
  = Raise KeyError
  /\ main_from_step_2b 738886 [sample_observation] [] sample_stop_times
     = Ret NothingSaved.
Proof. split; reflexivity. Qed.

(** ** The ingestion cycle: failed feeds, and what the log keeps *)

Section Cycles.

Import App.

Variable stops_df : str -> option str.
Variable local_clock : Z -> str.

Local Abbreviation process_and_store_data := (App.process_and_store_data stops_df local_clock).
Local Abbreviation decoded := (App.decoded stops_df local_clock).

Lemma decoded_app rs1 rs2 : decoded (rs1 ++ rs2) = decoded rs1 ++ decoded rs2.
Proof. unfold App.decoded. apply flat_map_app. Qed.

(** X18.  A feed that could not be fetched or decoded is passed over: the
    cycle leaves both tables exactly as the same cycle without that
    response would. *)
Theorem process_and_store_data_skips_failed_feed s before failed after :
  failed = Falsy \/ failed = Undecodable ->
  process_and_store_data s (before ++ failed :: after)
  = process_and_store_data s (before ++ after).
Proof.
  intros H. rewrite !process_and_store_data_tables.
  assert (E : decoded (before ++ failed :: after) = decoded (before ++ after)).
  { rewrite !decoded_app. f_equal.
    change (failed :: after) with ([failed] ++ after). rewrite decoded_app.
    destruct H as [-> | ->]; reflexivity. }
  now rewrite E.
Qed.

Lemma decoded_all_failed responses :
  Forall (fun r => r = Falsy \/ r = Undecodable) responses -> decoded responses = [].
Proof.
  induction 1 as [|r rs Hr _ IH]; [reflexivity|].
  change (r :: rs) with ([r] ++ rs). rewrite decoded_app, IH.
  destruct Hr as [-> | ->]; reflexivity.
Qed.

(** X19.  When every feed of a cycle fails, the snapshot is left empty and
    the historical table is untouched. *)
Theorem process_and_store_data_all_failed s responses :
  Forall (fun r => r = Falsy \/ r = Undecodable) responses ->
  rows (realtime (process_and_store_data s responses)) = []
  /\ historical (process_and_store_data s responses) = historical s.
Proof.
  intros H. rewrite process_and_store_data_tables, (decoded_all_failed _ H).
  split; reflexivity.
Qed.

Lemma fold_insert_or_ignore_prefix os t :
  exists news,
    rows (fold_left insert_or_ignore os t) = rows t ++ news
    /\ Forall (fun r => In (snd r) os) news.
Proof.
  revert t. induction os as [|o os IH]; intros t.
  - exists []. cbn. now rewrite app_nil_r.
  - cbn [fold_left]. destruct (IH (insert_or_ignore t o)) as (news & Hr & Hf).
    assert (Hf' : Forall (fun r => In (snd r) (o :: os)) news).
    { eapply Forall_impl; [|exact Hf]. intros r Hin. now right. }
    unfold insert_or_ignore in Hr |- *.
    destruct (existsb _ (rows t)).
    + exists news. auto.
    + exists ((seq t + 1, o) :: news). cbn [insert rows] in Hr.
      rewrite Hr, <- app_assoc. split; [reflexivity|].
      constructor; [now left | exact Hf'].
Qed.

(** X20.  The historical table only grows at its end: after a cycle its
    old rows are still there, unchanged and in place, followed by new rows
    that all hold observations decoded in that cycle. *)
Theorem historical_append_only s responses :
  exists news,
    rows (historical (process_and_store_data s responses))
    = rows (historical s) ++ news
    /\ Forall (fun r => In (snd r) (decoded responses)) news.
Proof.
  rewrite process_and_store_data_tables. cbn [historical].
  apply fold_insert_or_ignore_prefix.
Qed.

Lemma keys_prefix t t' news :
  rows t' = rows t ++ news -> forall k, In k (keys t) -> In k (keys t').
Proof.
  intros H k Hk. unfold keys in *. rewrite H, map_app. apply in_or_app. now left.
Qed.

Lemma fold_insert_or_ignore_has_keys os t o :
  In o os -> In (natural_key o) (keys (fold_left insert_or_ignore os t)).
Proof.
  revert t. induction os as [|x os IH]; intros t Hin; [contradiction|].
  cbn [fold_left]. destruct Hin as [->|Hin]; [|now apply IH].
  destruct (fold_insert_or_ignore_prefix os (insert_or_ignore t o)) as (news & Hr & _).
  eapply keys_prefix; [exact Hr|]. apply insert_or_ignore_has_key.
Qed.

Lemma historical_covers_cycle_aux s responses o :
  In o (decoded responses) ->
  In (natural_key o) (keys (historical (process_and_store_data s responses))).
Proof.
  intros H. rewrite process_and_store_data_tables. cbn [historical].
  now apply fold_insert_or_ignore_has_keys.
Qed.

(** X21.  After a cycle the historical table has a row for the natural key
    of every observation decoded in that cycle. *)
Theorem historical_covers_cycle s responses o :
  In o (decoded responses) ->
  In (natural_key o) (keys (historical (process_and_store_data s responses))).
Proof.
  apply historical_covers_cycle_aux.
Qed.



End Cycles.

Lemma process_and_store_data_skips_failed_feed_witness :
  App.process_and_store_data sample_stops sample_clock
    (App.init_databases (App.mk_databases None None))
    ([sample_feed] ++ App.Undecodable :: [sample_feed])
  = App.process_and_store_data sample_stops sample_clock
      (App.init_databases (App.mk_databases None None))
      ([sample_feed] ++ [sample_feed]).
Proof.
  apply (process_and_store_data_skips_failed_feed sample_stops sample_clock).
  right. reflexivity.
Defined.

Lemma process_and_store_data_all_failed_witness :
  App.rows (App.realtime
              (App.process_and_store_data sample_stops sample_clock
                 (App.process_and_store_data sample_stops sample_clock
                    (App.init_databases (App.mk_databases None None)) [sample_feed])
                 [App.Falsy; App.Undecodable])) = []
  /\ App.historical
       (App.process_and_store_data sample_stops sample_clock
          (App.process_and_store_data sample_stops sample_clock
             (App.init_databases (App.mk_databases None None)) [sample_feed])
          [App.Falsy; App.Undecodable])
     = App.historical
         (App.process_and_store_data sample_stops sample_clock
            (App.init_databases (App.mk_databases None None)) [sample_feed]).
Proof.
  apply (process_and_store_data_all_failed sample_stops sample_clock).
  apply Forall_cons; [now left|]. apply Forall_cons; [now right|]. apply Forall_nil.
Defined.

Lemma historical_covers_cycle_witness :
  In (App.natural_key
        (App.mk_observation "1" "000600_1..S03R" 1 "Southbound" "00:06:00"
           "20240107" "103S" "00:06:00" "00:06:00"))
     (keys (App.historical
              (App.process_and_store_data sample_stops sample_clock
                 (App.init_databases (App.mk_databases None None)) [sample_feed]))).
Proof.
  apply (historical_covers_cycle sample_stops sample_clock).
  vm_compute. right. now left.
Defined.

(** ** train_model.py: the arrival feature and the feature list *)

Lemma arrival_seconds_fields_aux h m s c1 c2 rest :
  0 <= h <= 99 -> 0 <= m <= 99 -> 0 <= s <= 99 ->
  arrival_seconds (pad2 h ++ c1 :: pad2 m ++ c2 :: pad2 s ++ rest)
  = Ret (h * 3600 + m * 60 + s).
Proof.
  intros Hh Hm Hs. unfold arrival_seconds.
  change (slice 0 2 (pad2 h ++ c1 :: pad2 m ++ c2 :: pad2 s ++ rest)) with (pad2 h).
  change (slice 3 5 (pad2 h ++ c1 :: pad2 m ++ c2 :: pad2 s ++ rest)) with (pad2 m).
  change (slice 6 8 (pad2 h ++ c1 :: pad2 m ++ c2 :: pad2 s ++ rest)) with (pad2 s).
  now rewrite !py_int_pad2 by assumption.
Qed.

(** X23.  The arrival feature reads characters 0-1, 3-4 and 6-7 as hour,
    minute and second and adds them up without wrapping; the characters
    at positions 2 and 5 and anything after position 7 are not looked at. *)
Theorem arrival_seconds_two_digit_fields h m s c1 c2 rest :
  0 <= h <= 99 -> 0 <= m <= 99 -> 0 <= s <= 99 ->
  arrival_seconds (pad2 h ++ c1 :: pad2 m ++ c2 :: pad2 s ++ rest)
  = Ret (h * 3600 + m * 60 + s).
Proof. apply arrival_seconds_fields_aux. Qed.

Lemma arrival_seconds_two_digit_fields_witness :
  arrival_seconds (pad2 25 ++ "h"%char :: pad2 10 ++ "m"%char :: pad2 0 ++ Py.lit "s")
  = Ret (25 * 3600 + 10 * 60 + 0).
Proof.
  apply (arrival_seconds_two_digit_fields 25 10 0); lia.
Defined.

(** X24.  On a schedule time [HH:MM:SS] the trainer's feature is the
    unwrapped number of seconds, while the assembler computed the delay
    from the time of day: the two agree modulo 24 hours, and differ by
    whole days when the hour is 24 or more. *)
Theorem arrival_seconds_and_parser h m s :
  0 <= h <= 99 -> 0 <= m <= 99 -> 0 <= s <= 99 ->
  exists t,
    robust_time_parser (PyStr (clock_string h m s)) = Ret (Some t)
    /\ arrival_seconds (clock_string h m s) = Ret (h * 3600 + m * 60 + s)
    /\ seconds_of_time t = (h * 3600 + m * 60 + s) mod 86400.
Proof.
  intros Hh Hm Hs.
  exists (time_of_seconds ((3600 * h + 60 * m + s) mod 86400)).
  split; [|split].
  - unfold clock_string.
    rewrite (robust_time_parser_fields _ _ _ (digits_pad2 h Hh) (digits_pad2 m Hm)
               (digits_pad2 s Hs)).
    rewrite !decimal_pad2 by assumption. cbv zeta.
    replace (3600 * h + 60 * m + s <? MAXORDINAL * 86400) with true
      by (symmetry; apply Z.ltb_lt; unfold MAXORDINAL; lia).
    reflexivity.
  - unfold clock_string.
    rewrite <- (app_nil_r (pad2 s)).
    now apply arrival_seconds_fields_aux.
  - rewrite seconds_of_time_of_seconds. f_equal. lia.
Qed.

Lemma arrival_seconds_and_parser_witness :
  exists t,
    robust_time_parser (PyStr (clock_string 25 10 0)) = Ret (Some t)
    /\ arrival_seconds (clock_string 25 10 0) = Ret (25 * 3600 + 10 * 60 + 0)
    /\ seconds_of_time t = (25 * 3600 + 10 * 60 + 0) mod 86400.
Proof.
  apply (arrival_seconds_and_parser 25 10 0); lia.
Defined.

Lemma py_int_digit_colon c : is_digit c = true -> py_int [c; ":"%char] = Raise ValueError.
Proof.
  intros Hc. unfold py_int. cbn [lstrip]. rewrite (is_digit_not_space _ Hc).
  rewrite (is_digit_not c "+" Hc eq_refl), (is_digit_not c "-" Hc eq_refl).
  rewrite (is_digit_not c "_" Hc eq_refl).
  cbn [scan_digits]. rewrite Hc. reflexivity.
Qed.

Lemma arrival_seconds_raises x e : arrival_seconds x = Raise e -> e = ValueError.
Proof.
  unfold arrival_seconds.
  destruct (py_int (slice 0 2 x)) as [h|e0] eqn:E0;
    [|cbn; intros H; inversion H; subst; eapply py_int_raises; eauto].
  destruct (py_int (slice 3 5 x)) as [m|e1] eqn:E1;
    [|cbn; intros H; inversion H; subst; eapply py_int_raises; eauto].
  destruct (py_int (slice 6 8 x)) as [s|e2] eqn:E2;
    [discriminate|cbn; intros H; inversion H; subst; eapply py_int_raises; eauto].
Qed.

(** X25.  A schedule time with a one-digit hour, which the assembler's
    parser accepts (["7:05:09"] is 07:05:09), makes the trainer fail: the
    hour slice is then a digit and a colon, [int] rejects it, and the whole
    feature column is lost to a [ValueError]. *)
Theorem scheduled_arrival_seconds_one_digit_hour column c rest :
  is_digit c = true ->
  In (c :: ":"%char :: rest) column ->
  scheduled_arrival_seconds column = Raise ValueError.
Proof.
  intros Hc Hin. unfold scheduled_arrival_seconds.
  assert (G : exists e, apply arrival_seconds column = Raise e).
  { apply (apply_raises_in _ _ _ Hin). exists ValueError.
    unfold arrival_seconds.
    change (slice 0 2 (c :: ":"%char :: rest)) with [c; ":"%char].
    now rewrite (py_int_digit_colon c Hc). }
  destruct G as [e He]. rewrite He. f_equal.
  eapply apply_raises_only; [|exact He]. intros a e'. apply arrival_seconds_raises.
Qed.

Lemma scheduled_arrival_seconds_one_digit_hour_witness :
  scheduled_arrival_seconds [Py.lit "08:00:00"; Py.lit "7:05:09"] = Raise ValueError.
Proof.
  apply (scheduled_arrival_seconds_one_digit_hour
           [Py.lit "08:00:00"; Py.lit "7:05:09"] "7"%char (Py.lit "05:09")).
  - reflexivity.
  - right. now left.
Defined.

Lemma filter_all_true {A : Type} (p : A -> bool) l :
  Forall (fun a => p a = true) l -> filter p l = l.
Proof.
  induction 1 as [|a l Ha _ IH]; [reflexivity|].
  cbn [filter]. now rewrite Ha, IH.
Qed.

(** X26.  Whatever one-hot columns the data give, the feature list is the
    numerical arrival column followed by exactly those one-hot columns:
    the target [delay_seconds], the observed arrival and the other text
    columns of the table are never features. *)
Theorem features_are_arrival_and_dummies dummies :
  Forall (fun col => is_dummy col = true) dummies ->
  features (plain_columns ++ dummies) = Py.lit "scheduled_arrival_seconds" :: dummies
  /\ ~ In target (features (plain_columns ++ dummies))
  /\ ~ In (Py.lit "actual_arrival") (features (plain_columns ++ dummies)).
Proof.
  intros Hd.
  assert (E : features (plain_columns ++ dummies)
              = Py.lit "scheduled_arrival_seconds" :: dummies).
  { unfold features. rewrite filter_app.
    change (filter _ plain_columns) with (@nil str).
    cbn [app numerical_features]. f_equal. apply (filter_all_true _ _ Hd). }
  rewrite E. split; [reflexivity|].
  rewrite Forall_forall in Hd.
  split; intros [H|H]; try discriminate; apply Hd in H; vm_compute in H; discriminate.
Qed.

Lemma features_are_arrival_and_dummies_witness :
  features (plain_columns ++ [Py.lit "route_id_1"; Py.lit "stop_id_101S";
                              Py.lit "service_day_Sunday"])
  = Py.lit "scheduled_arrival_seconds"
      :: [Py.lit "route_id_1"; Py.lit "stop_id_101S"; Py.lit "service_day_Sunday"].
Proof.
  apply (features_are_arrival_and_dummies
           [Py.lit "route_id_1"; Py.lit "stop_id_101S"; Py.lit "service_day_Sunday"]).
  repeat constructor.
Defined.

(** X27.  The trainer's day type agrees with the calendar column the
    assembler looks the service up in: the weekdays of the columns monday
    to friday are "Weekday", those of saturday and sunday are "Saturday"
    and "Sunday". *)
Theorem get_service_day_matches_calendar_column day_int col :
  day_map_get day_int = Some col ->
  get_service_day day_int = day_type col.
Proof.
  destruct day_int as [|p|p]; [| |discriminate].
  - intros H. inversion H. reflexivity.
  - destruct p as [[[?|?|]|[?|?|]|]|[[?|?|]|[?|?|]|]|]; cbn;
      intros H; inversion H; reflexivity.
Qed.

Lemma get_service_day_matches_calendar_column_witness :
  get_service_day (weekday (mk_date 2024 1 6)) = day_type Saturday.
Proof.
  apply (get_service_day_matches_calendar_column (weekday (mk_date 2024 1 6)) Saturday).
  reflexivity.
Defined.

(** ** Step 2a of [main]: dates as integers and back *)

Lemma of_uint_acc_horner u acc :
  Z.pos (Pos.of_uint_acc u acc)
  = fold_left (fun a c => 10 * a + digit_val c) (chars_of_uint u) (Z.pos acc).
Proof.
  unfold chars_of_uint. revert acc.
  induction u as [|u IH|u IH|u IH|u IH|u IH|u IH|u IH|u IH|u IH|u IH]; intros acc;
    [reflexivity|..];
    cbn [Pos.of_uint_acc NilEmpty.string_of_uint list_ascii_of_string fold_left];
    rewrite IH; f_equal;
    match goal with
    | |- context [digit_val ?c] =>
        let v := eval vm_compute in (digit_val c) in change (digit_val c) with v
    end; lia.
Qed.

Lemma of_uint_horner u :
  Z.of_N (Pos.of_uint u) = decimal (chars_of_uint u).
Proof.
  unfold decimal.
  induction u as [|u IH|u IH|u IH|u IH|u IH|u IH|u IH|u IH|u IH|u IH];
    [reflexivity|exact IH|..];
    cbn [Pos.of_uint Z.of_N]; rewrite of_uint_acc_horner; reflexivity.
Qed.

Lemma chars_of_uint_digits u : forallb is_digit (chars_of_uint u) = true.
Proof.
  unfold chars_of_uint.
  induction u as [|u IH|u IH|u IH|u IH|u IH|u IH|u IH|u IH|u IH|u IH];
    [reflexivity|..];
    cbn [NilEmpty.string_of_uint list_ascii_of_string forallb]; rewrite IH; reflexivity.
Qed.

Lemma chars_of_uint_of_digits l :
  Forall (fun k => 0 <= k <= 9) l ->
  chars_of_uint (uint_of_digits l) = map digit_char l.
Proof.
  unfold chars_of_uint. induction 1 as [|k l Hk _ IH]; [reflexivity|].
  assert (C : k = 0 \/ k = 1 \/ k = 2 \/ k = 3 \/ k = 4 \/ k = 5 \/ k = 6
              \/ k = 7 \/ k = 8 \/ k = 9) by lia.
  cbn [map]. rewrite <- IH.
  repeat (destruct C as [->|C]; [reflexivity|]). subst. reflexivity.
Qed.

Lemma unorm_of_digits k l :
  1 <= k <= 9 ->
  Decimal.unorm (uint_of_digits (k :: l)) = uint_of_digits (k :: l).
Proof.
  intros Hk.
  assert (C : k = 1 \/ k = 2 \/ k = 3 \/ k = 4 \/ k = 5 \/ k = 6
              \/ k = 7 \/ k = 8 \/ k = 9) by lia.
  repeat (destruct C as [->|C]; [reflexivity|]). subst. reflexivity.
Qed.

(** [str] writes a positive number with the given digits as those digits,
    when the first one is not zero. *)
Lemma py_str_of_int_digits k l :
  1 <= k <= 9 -> Forall (fun d => 0 <= d <= 9) l ->
  py_str_of_int (fold_left (fun acc d => 10 * acc + d) (k :: l) 0)
  = map digit_char (k :: l).
Proof.
  intros Hk Hl.
  assert (Hall : Forall (fun d => 0 <= d <= 9) (k :: l)) by (constructor; [lia|exact Hl]).
  set (u := uint_of_digits (k :: l)).
  assert (Hv : Z.of_uint u = fold_left (fun acc d => 10 * acc + d) (k :: l) 0).
  { unfold Z.of_uint. rewrite of_uint_horner. unfold u.
    rewrite chars_of_uint_of_digits by exact Hall. now apply decimal_of_chars. }
  rewrite <- Hv. unfold py_str_of_int.
  change (Z.of_uint u) with (Z.of_int (Decimal.Pos u)).
  rewrite DecimalZ.to_of. cbn [Decimal.norm].
  unfold u at 1. rewrite (unorm_of_digits k l Hk). fold u.
  cbn [NilZero.string_of_int]. 
  rewrite <- (chars_of_uint_of_digits (k :: l) Hall). fold u.
  unfold chars_of_uint, NilZero.string_of_uint.
  assert (C : k = 1 \/ k = 2 \/ k = 3 \/ k = 4 \/ k = 5 \/ k = 6
              \/ k = 7 \/ k = 8 \/ k = 9) by lia.
  unfold u. repeat (destruct C as [->|C]; [reflexivity|]). subst. reflexivity.
Qed.

Lemma py_str_of_int_yyyymmdd y m d :
  1000 <= y <= 9999 -> 0 <= m <= 99 -> 0 <= d <= 99 ->
  py_str_of_int (10000 * y + 100 * m + d) = yyyymmdd y m d.
Proof.
  intros Hy Hm Hd.
  change (yyyymmdd y m d)
    with (map digit_char [y / 1000; y / 100 mod 10; y / 10 mod 10; y mod 10;
                          m / 10; m mod 10; d / 10; d mod 10]).
  rewrite <- py_str_of_int_digits;
    [|Z.to_euclidean_division_equations; lia|digit_bounds].
  f_equal. cbn [fold_left]. Z.to_euclidean_division_equations; lia.
Qed.

Lemma apply_total_in {A B : Type} (f : A -> res B) (g : A -> B) l :
  (forall a, In a l -> f a = Ret (g a)) -> apply f l = Ret (map g l).
Proof.
  induction l as [|a l IH]; intros H; [reflexivity|].
  cbn [apply map]. rewrite (H a) by now left.
  rewrite IH by (intros x Hx; apply H; now right). reflexivity.
Qed.

Lemma apply_map {A B C : Type} (f : B -> res C) (g : A -> B) l :
  apply f (map g l) = apply (fun a => f (g a)) l.
Proof.
  induction l as [|a l IH]; [reflexivity|]. cbn [map apply]. now rewrite IH.
Qed.

Lemma astype_int_date_text x :
  date_text x ->
  astype_int x = Ret (decimal x) /\ py_str_of_int (decimal x) = x.
Proof.
  intros (y & m & d & Hv & Hy & ->).
  pose proof Hv as ((Hy1 & Hy2) & (Hm1 & Hm2) & (Hd1 & Hd2)).
  pose proof (days_in_month_le y m) as Hdim.
  assert (Hn : decimal (yyyymmdd y m d) = 10000 * y + 100 * m + d).
  { change (yyyymmdd y m d)
      with (map digit_char [y / 1000; y / 100 mod 10; y / 10 mod 10; y mod 10;
                            m / 10; m mod 10; d / 10; d mod 10]).
    rewrite decimal_of_chars by digit_bounds.
    cbn [fold_left]. Z.to_euclidean_division_equations; lia. }
  rewrite Hn. split.
  - unfold astype_int. rewrite py_int_yyyymmdd by lia. cbn [Py.bind].
    replace ((- 2 ^ 63 <=? 10000 * y + 100 * m + d)
             && (10000 * y + 100 * m + d <? 2 ^ 63)) with true; [reflexivity|].
    symmetry. apply andb_true_iff. split; [apply Z.leb_le|apply Z.ltb_lt]; lia.
  - apply py_str_of_int_yyyymmdd; lia.
Qed.

Lemma get_service_id_for_date_returns x calendar_df :
  date_text x -> exists found, get_service_id_for_date x calendar_df = Ret found.
Proof.
  intros (y & m & d & Hv & Hy & ->).
  pose proof Hv as ((Hy1 & Hy2) & (Hm1 & Hm2) & (Hd1 & Hd2)).
  pose proof (days_in_month_le y m) as Hdim.
  destruct (day_map_get_weekday (mk_date y m d)) as (col & _ & Hcol).
  unfold get_service_id_for_date.
  change (slice 0 4 (yyyymmdd y m d)) with (pad4 y).
  change (slice 4 6 (yyyymmdd y m d)) with (pad2 m).
  change (slice 6 8 (yyyymmdd y m d)) with (pad2 d).
  rewrite py_int_pad4, !py_int_pad2 by lia. cbn [Py.bind].
  rewrite (date_new_valid _ _ _ Hv). cbn [Py.bind].
  rewrite Hcol, py_int_yyyymmdd by lia. cbn [Py.bind].
  eexists. reflexivity.
Qed.

(** X28.  On a frame whose dates are calendar dates written with eight
    digits, step 2a keeps, in order, exactly the rows for which
    [get_service_id_for_date] finds a service on the stored date text, each
    with its date as an integer and that service id; the passage of the
    date through [int] and back through [str] changes nothing, and the
    rows without a service are dropped. *)
Theorem assign_service_ids_keeps_served realtime_df calendar_df :
  Forall (fun r => date_text (h_start_date r)) realtime_df ->
  assign_service_ids realtime_df calendar_df
  = Ret (flat_map (served calendar_df) realtime_df).
Proof.
  intros Hall. rewrite Forall_forall in Hall.
  unfold assign_service_ids.
  rewrite (apply_total_in _ (fun r => decimal (h_start_date r)))
    by (intros r Hr; apply astype_int_date_text; auto).
  cbn [Py.bind]. rewrite apply_map.
  rewrite (apply_total_in _
             (fun r => match get_service_id_for_date (h_start_date r) calendar_df with
                       | Ret found => found
                       | Raise _ => None
                       end)).
  - cbn [Py.bind]. f_equal.
    clear Hall. induction realtime_df as [|r l IH]; [reflexivity|].
    cbn [map List.combine dropna_service_id flat_map fst snd].
    fold (dropna_service_id
            (List.combine (List.combine l (map (fun r => decimal (h_start_date r)) l))
               (map (fun r => match get_service_id_for_date (h_start_date r) calendar_df with
                              | Ret found => found
                              | Raise _ => None
                              end) l))).
    rewrite IH. unfold served at 2.
    destruct (get_service_id_for_date (h_start_date r) calendar_df) as [[sid|]|e];
      reflexivity.
  - intros r Hr. cbv beta.
    rewrite (proj2 (astype_int_date_text _ (Hall r Hr))).
    destruct (get_service_id_for_date_returns _ calendar_df (Hall r Hr)) as [found ->].
    reflexivity.
Qed.

Lemma assign_service_ids_keeps_served_witness :
  assign_service_ids sample_history sample_calendar
  = Ret (flat_map (served sample_calendar) sample_history).
Proof.
  apply (assign_service_ids_keeps_served sample_history sample_calendar).
  apply Forall_cons; [|apply Forall_cons; [|apply Forall_nil]].
  - exists 2024, 1, 6. repeat split; try reflexivity; vm_compute; discriminate.
  - exists 2024, 1, 7. repeat split; try reflexivity; vm_compute; discriminate.
Defined.

(** Of the two sample rows only the Sunday one has a service, and it goes
    on to step 2b with the date 20240107. *)
Example assign_service_ids_sample :
  assign_service_ids sample_history sample_calendar = Ret [sample_observation_2].
Proof. reflexivity. Qed.

Lemma astype_int_raises x e :
  astype_int x = Raise e -> e = ValueError \/ e = OverflowError.
Proof.
  unfold astype_int. destruct (py_int x) as [n|e0] eqn:E; cbn [Py.bind].
  - destruct (_ && _); [discriminate|]. intros H. inversion H. now right.
  - intros H. inversion H; subst. left. eapply py_int_raises; eauto.
Qed.

(** X29.  One date that [int] cannot read ends the run before anything is
    matched: if a single row of the historical table has such a
    [start_date] (an empty one, for a feed that sent none), [main] raises
    [ValueError] or [OverflowError] and saves nothing, whatever the other
    rows hold. *)
Theorem main_aborts_on_unreadable_date today realtime_df trips_df stop_times_df
    calendar_df r :
  In r realtime_df ->
  (exists e, py_int (h_start_date r) = Raise e) ->
  main today realtime_df trips_df stop_times_df calendar_df = Raise ValueError
  \/ main today realtime_df trips_df stop_times_df calendar_df = Raise OverflowError.
Proof.
  intros Hin [e He].
  assert (G : exists e', apply (fun r => astype_int (h_start_date r)) realtime_df
                         = Raise e').
  { apply (apply_raises_in _ _ r Hin). exists e. unfold astype_int. now rewrite He. }
  destruct G as [e' He'].
  assert (D : e' = ValueError \/ e' = OverflowError).
  { clear Hin. revert He'. induction realtime_df as [|x l IH]; [discriminate|].
    cbn [apply]. destruct (astype_int (h_start_date x)) as [n|e1] eqn:E1; cbn [Py.bind].
    - destruct (apply _ l) as [ns|e2]; cbn [Py.bind]; [discriminate|].
      intros H. inversion H; subst. now apply IH.
    - intros H. inversion H; subst. eapply astype_int_raises; eauto. }
  unfold main. destruct realtime_df as [|x l]; [contradiction|].
  unfold assign_service_ids. rewrite He'. cbn [Py.bind].
  destruct D as [-> | ->]; [now left | now right].
Qed.

Lemma main_aborts_on_unreadable_date_witness :
  main 738886
    (sample_history
     ++ [mk_history_row 3 "1" "000600_1..S03R" 1 "Southbound" "00:06:00" ""
           "Van Cortlandt Park-242 St" (PyStr "00:07:30")])
    [sample_trip_a] sample_stop_times sample_calendar = Raise ValueError
  \/ main 738886
       (sample_history
        ++ [mk_history_row 3 "1" "000600_1..S03R" 1 "Southbound" "00:06:00" ""
              "Van Cortlandt Park-242 St" (PyStr "00:07:30")])
       [sample_trip_a] sample_stop_times sample_calendar = Raise OverflowError.
Proof.
  apply (main_aborts_on_unreadable_date 738886 _ _ _ _
           (mk_history_row 3 "1" "000600_1..S03R" 1 "Southbound" "00:06:00" ""
              "Van Cortlandt Park-242 St" (PyStr "00:07:30"))).
  - apply in_or_app. right. now left.
  - exists ValueError. reflexivity.
Defined.

(** ** [main] on the table app/App.py creates *)




(** The sample table has one row with a service, and the static trip
    matches it: the run ends at line 160.  Without a static trip to match
    it returns at line 154. *)
Example main_sample :
  main 738886 sample_history [sample_trip_a] sample_stop_times sample_calendar
  = Raise KeyError
  /\ main 738886 sample_history [] sample_stop_times sample_calendar
     = Ret NothingSaved.
Proof. split; reflexivity. Qed.
